(** * paramiko [rsakey.py]: the SSH RSA key object

    A shallow embedding of [paramiko/rsakey.py] (class [RSAKey]) together
    with the two collaborators it talks to:

    - the wire codec ([paramiko.message.Message]), a byte buffer with
      length-prefixed strings and SSH [mpint] integers;
    - the crypto provider (the [cryptography] package), kept abstract as a
      record of operations, so that every theorem about [RSAKey] holds for
      any provider.

    Python exceptions are values of [exn]; a call that may raise returns a
    [result].  Bytes are [Byte.byte], integers are [Z]. *)

From Stdlib Require Import ZArith String Bool Lia.
From Stdlib Require Import Strings.Byte List.
Import ListNotations.
Local Open Scope Z_scope.

(** ** Exceptions and the error monad *)

(** The exception classes that [rsakey.py] raises, catches, or lets through
    from its collaborators. *)
Inductive exn : Type :=
| SSHException (text : string)          (* paramiko.ssh_exception *)
| InvalidSignature                      (* cryptography.exceptions *)
| UnsupportedAlgorithm (text : string)  (* cryptography.exceptions *)
| ValueError (text : string)
| TypeError (text : string)
| AttributeError (text : string)
| OverflowError (text : string)
| IOError (text : string)
| AssertionError.

(** [str(e)] of an exception: its message text. *)
Definition exn_str (e : exn) : string :=
  match e with
  | SSHException t | UnsupportedAlgorithm t | ValueError t | TypeError t
  | AttributeError t | OverflowError t | IOError t => t
  | InvalidSignature | AssertionError => EmptyString
  end.

Inductive result (A : Type) : Type :=
| Ok (a : A)
| Raise (e : exn).
Arguments Ok {A} a.
Arguments Raise {A} e.

Definition bind {A B : Type} (c : result A) (k : A -> result B) : result B :=
  match c with
  | Ok a => k a
  | Raise e => Raise e
  end.

Notation "x <- c ;; k" := (bind c (fun x => k))
  (at level 61, c at next level, right associativity).
Notation "' p <- c ;; k" := (bind c (fun x => let p := x in k))
  (at level 61, p pattern, c at next level, right associativity).

(** ** Bytes and big-endian integers *)

Definition bytes : Type := list byte.

Definition byte_to_Z (b : byte) : Z := Z.of_N (Byte.to_N b).

Definition byte_of_Z (z : Z) : byte :=
  match Byte.of_N (Z.to_N (z mod 256)) with
  | Some b => b
  | None => x00
  end.

(** [be_bytes k z]: the [k] low-order bytes of [z], most significant first
    (two's complement when [z] is negative). *)
Fixpoint be_bytes (k : nat) (z : Z) : bytes :=
  match k with
  | O => []
  | S k' => be_bytes k' (z / 256) ++ [byte_of_Z z]
  end.

(** The unsigned value of a big-endian byte string. *)
Definition be_value (bs : bytes) : Z :=
  fold_left (fun acc b => acc * 256 + byte_to_Z b) bs 0.


Fixpoint bytes_eqb (a b : bytes) : bool :=
  match a, b with
  | [], [] => true
  | x :: a', y :: b' => Byte.eqb x y && bytes_eqb a' b'
  | _, _ => false
  end.

(** ** The wire codec: [paramiko.message.Message] *)

(** Modelled from the spec: the bit count behind [paramiko.util.deflate_long],
    which is missing from the sources: the number of magnitude bits of [z]
    (of [-z - 1] up to one for a negative [z]). *)
Definition signed_bits (z : Z) : Z :=
  if 0 <=? z then Z.log2_up (z + 1) else Z.log2_up (- z).

(** Modelled from the spec: the length of the body that
    [paramiko.util.deflate_long] (missing from the sources) produces.  One
    bit more than the magnitude is needed for the sign, so the body has
    [signed_bits z / 8 + 1] bytes: the minimal length, plus the leading zero
    byte exactly when the top bit of the magnitude is set.  Zero has the
    empty body. *)
Definition mpint_size (z : Z) : nat :=
  if z =? 0 then O else Z.to_nat (signed_bits z / 8 + 1).

(** Modelled from the spec: [paramiko.util.deflate_long] (used by
    [Message.add_mpint]) is missing from the sources.  The spec's glossary
    gives the mpint body as the minimal big-endian bytes of the number, with
    a leading zero byte when the top bit would read as a sign; negative
    numbers are in two's complement. *)
Definition deflate_long (z : Z) : bytes := be_bytes (mpint_size z) z.

(** Modelled from the spec: [paramiko.util.inflate_long] (used by
    [Message.get_mpint]) is missing from the sources.  The body is read as a
    signed big-endian number: a first byte with its top bit set marks a
    negative value. *)
Definition inflate_long (bs : bytes) : Z :=
  match bs with
  | [] => 0
  | b :: _ =>
      if 128 <=? byte_to_Z b
      then be_value bs - 256 ^ Z.of_nat (length bs)
      else be_value bs
  end.

(** Modelled from the spec: class [Message] of [paramiko/message.py] is
    missing from the sources.  It is the spec's wire message: a byte buffer
    with ordered append and read of typed fields.  A length prefix is four
    big-endian bytes; a field that is cut short is rejected with the protocol
    error; a length that does not fit the prefix cannot be written. *)
Module Message.

(** Modelled from the spec: the state of a [Message] of
    [paramiko/message.py], which is missing: the bytes of the buffer and the
    read position. *)
Record t : Type := mk { packet : bytes; pos : nat }.

(** Modelled from the spec: [Message()], missing from the sources; an empty
    buffer. *)
Definition new : t := mk [] 0.

(** Modelled from the spec: [Message(content)], missing from the sources; a
    buffer over [content], read from its start. *)
Definition of_bytes (content : bytes) : t := mk content 0.

(** Modelled from the spec: [Message.asbytes], missing from the sources; the
    whole buffer. *)
Definition asbytes (m : t) : bytes := packet m.

(** Modelled from the spec: the unread rest of the buffer of a [Message]
    (missing from the sources). *)
Definition remaining (m : t) : bytes := skipn (pos m) (packet m).

(** Modelled from the spec: [Message.add_bytes], missing from the sources;
    ordered append. *)
Definition add_bytes (m : t) (b : bytes) : t := mk (packet m ++ b) (pos m).

(** Modelled from the spec: [Message.add_int], missing from the sources; a
    length is written as four big-endian bytes, and one that does not fit
    cannot be written. *)
Definition add_int (m : t) (v : Z) : result t :=
  if (0 <=? v) && (v <? 2 ^ 32)
  then Ok (add_bytes m (be_bytes 4 v))
  else Raise (OverflowError "length does not fit in 32 bits").

(** Modelled from the spec: [Message.add_string], missing from the sources;
    a length-prefixed string. *)
Definition add_string (m : t) (s : bytes) : result t :=
  m1 <- add_int m (Z.of_nat (length s)) ;;
  Ok (add_bytes m1 s).

(** Modelled from the spec: [Message.add_mpint], missing from the sources;
    the mpint body as a length-prefixed string. *)
Definition add_mpint (m : t) (z : Z) : result t :=
  add_string m (deflate_long z).

(** Modelled from the spec: [Message.get_bytes], missing from the sources;
    the next [k] bytes, and the protocol error when the buffer is cut
    short. *)
Definition get_bytes (m : t) (k : nat) : result (bytes * t) :=
  if (k <=? length (remaining m))%nat
  then Ok (firstn k (remaining m), mk (packet m) (pos m + k))
  else Raise (SSHException "Invalid key").

(** Modelled from the spec: [Message.get_int], missing from the sources;
    four big-endian bytes. *)
Definition get_int (m : t) : result (Z * t) :=
  '(b, m1) <- get_bytes m 4 ;;
  Ok (be_value b, m1).

(** Modelled from the spec: [Message.get_string], missing from the sources;
    a length prefix and that many bytes. *)
Definition get_string (m : t) : result (bytes * t) :=
  '(len, m1) <- get_int m ;;
  get_bytes m1 (Z.to_nat len).

(** Modelled from the spec: [Message.get_binary], missing from the sources;
    a length-prefixed byte string. *)
Definition get_binary (m : t) : result (bytes * t) := get_string m.

(** Modelled from the spec: [Message.get_text], missing from the sources; a
    length-prefixed string read as text. *)
Definition get_text (m : t) : result (string * t) :=
  '(b, m1) <- get_string m ;;
  Ok (string_of_list_byte b, m1).

(** Modelled from the spec: [Message.get_mpint], missing from the sources; a
    length-prefixed mpint body, decoded. *)
Definition get_mpint (m : t) : result (Z * t) :=
  '(b, m1) <- get_binary m ;;
  Ok (inflate_long b, m1).

End Message.

(** Modelled from the spec: a length-prefixed field, as [Message.add_string]
    (missing from the sources) lays it out. *)
Definition field (s : bytes) : bytes :=
  be_bytes 4 (Z.of_nat (length s)) ++ s.

(** ** The crypto provider: the [cryptography] package *)

Inductive Padding : Type := PKCS1v15 | PSS | OAEP.

Inductive HashAlgorithm : Type := SHA1 | SHA256 | SHA512.

(** [rsa.RSAPublicNumbers] *)
Module RSAPublicNumbers.
Record t : Type := mk { e : Z; n : Z }.
End RSAPublicNumbers.

(** What [serialization.load_der_private_key] may hand back. *)
Inductive PrivateKeyObject (R : Type) : Type :=
| LoadedRSA (k : R)
| LoadedDSA
| LoadedEC.
Arguments LoadedRSA {R} k.
Arguments LoadedDSA {R}.
Arguments LoadedEC {R}.

(** The part of the provider's interface that [rsakey.py] calls.  The
    one-shot [sign]/[verify] methods exist only in newer releases
    ([has_sign], [has_verify]); older ones offer signer and verifier
    contexts. *)
Record CryptoProvider : Type := {
  RSAPrivateKey : Type;
  RSAPublicKey : Type;
  Signer : Type;
  Verifier : Type;
  Entropy : Type;
  (* rsa.RSAPublicNumbers(e, n).public_key(backend) *)
  numbers_public_key : RSAPublicNumbers.t -> result RSAPublicKey;
  (* key.public_numbers() *)
  public_key_numbers : RSAPublicKey -> RSAPublicNumbers.t;
  (* key.private_numbers().public_numbers *)
  private_public_numbers : RSAPrivateKey -> RSAPublicNumbers.t;
  (* key.public_key() *)
  private_public_key : RSAPrivateKey -> RSAPublicKey;
  (* key.key_size *)
  public_key_size : RSAPublicKey -> Z;
  private_key_size : RSAPrivateKey -> Z;
  (* hasattr(key, "sign"), hasattr(key, "verify") *)
  has_sign : bool;
  has_verify : bool;
  private_sign :
    RSAPrivateKey -> bytes -> Padding -> HashAlgorithm -> result bytes;
  private_signer :
    RSAPrivateKey -> Padding -> HashAlgorithm -> result Signer;
  signer_update : Signer -> bytes -> result Signer;
  signer_finalize : Signer -> result bytes;
  public_verify :
    RSAPublicKey -> bytes -> bytes -> Padding -> HashAlgorithm -> result unit;
  public_verifier :
    RSAPublicKey -> bytes -> Padding -> HashAlgorithm -> result Verifier;
  verifier_update : Verifier -> bytes -> result Verifier;
  verifier_verify : Verifier -> result unit;
  (* rsa.generate_private_key(public_exponent, key_size, backend) *)
  generate_private_key : Entropy -> Z -> Z -> result RSAPrivateKey;
  (* serialization.load_der_private_key(data, password=None, backend) *)
  load_der_private_key : bytes -> result (PrivateKeyObject RSAPrivateKey)
}.

(** What the provider promises about the keys it hands out. *)
Record ProviderLaws (P : CryptoProvider) : Prop := {
  built_key_numbers :
    forall pn pk,
      numbers_public_key P pn = Ok pk -> public_key_numbers P pk = pn;
  generated_key_shape :
    forall ent pe bits sk,
      generate_private_key P ent pe bits = Ok sk ->
      RSAPublicNumbers.e (private_public_numbers P sk) = pe /\
      private_key_size P sk = bits
}.

(** The readers of the base class [PKey] ([paramiko/pkey.py], not part of
    the sources): they take the expected tag, a stream or a path, and the
    password, and return the decrypted container bytes or raise. *)
Record PKeyBase : Type := {
  FileObj : Type;
  _read_private_key : string -> FileObj -> option string -> result bytes;
  _read_private_key_file : string -> string -> option string -> result bytes
}.

(** ** [class RSAKey] *)

Section RSAKey.

Context (P : CryptoProvider) (B : PKeyBase).

(** The attribute [self.key]: the two key classes are told apart with
    [isinstance(self.key, rsa.RSAPrivateKey)]. *)
Inductive KeyHandle : Type :=
| PrivateHandle (k : RSAPrivateKey P)
| PublicHandle (k : RSAPublicKey P).

Record RSAKey : Type := { key : KeyHandle }.

(** The keyword arguments of [RSAKey(...)]; [None] is Python's default. *)
Record InitArgs : Type := {
  arg_msg : option Message.t;
  arg_data : option bytes;
  arg_filename : option string;
  arg_password : option string;
  arg_key : option KeyHandle;
  arg_file_obj : option (FileObj B)
}.

(** A call of [RSAKey()] with every keyword argument left at its default. *)
Definition no_args : InitArgs :=
  {| arg_msg := None; arg_data := None; arg_filename := None;
     arg_password := None; arg_key := None; arg_file_obj := None |}.

Definition _decode_key (data : bytes) : result RSAKey :=
  match load_der_private_key P data with
  | Raise (ValueError text) => Raise (SSHException text)
  | Raise e => Raise e
  | Ok (LoadedRSA k) => Ok {| key := PrivateHandle k |}
  | Ok _ => Raise AssertionError
  end.

Definition _from_private_key_file (filename : string)
    (password : option string) : result RSAKey :=
  data <- _read_private_key_file B "RSA" filename password ;;
  _decode_key data.

Definition _from_private_key (file_obj : FileObj B)
    (password : option string) : result RSAKey :=
  data <- _read_private_key B "RSA" file_obj password ;;
  _decode_key data.

(** [RSAKey.__init__].  The second component is the local [msg] when the
    constructor returns: the message object as the reads have left it. *)
Definition __init__ (a : InitArgs) : result (RSAKey * option Message.t) :=
  match arg_file_obj a with
  | Some file_obj =>
      k <- _from_private_key file_obj (arg_password a) ;;
      Ok (k, arg_msg a)
  | None =>
  match arg_filename a with
  | Some filename =>
      k <- _from_private_key_file filename (arg_password a) ;;
      Ok (k, arg_msg a)
  | None =>
      let msg :=
        match arg_msg a, arg_data a with
        | None, Some data => Some (Message.of_bytes data)
        | m, _ => m
        end in
      match arg_key a with
      | Some h => Ok ({| key := h |}, msg)
      | None =>
          match msg with
          | None => Raise (SSHException "Key object may not be empty")
          | Some m =>
              '(tag, m1) <- Message.get_text m ;;
              if negb (tag =? "ssh-rsa")%string
              then Raise (SSHException "Invalid key")
              else
                '(e, m2) <- Message.get_mpint m1 ;;
                '(n, m3) <- Message.get_mpint m2 ;;
                pk <- numbers_public_key P (RSAPublicNumbers.mk e n) ;;
                Ok ({| key := PublicHandle pk |}, Some m3)
          end
      end
  end
  end.

Definition size (self : RSAKey) : Z :=
  match key self with
  | PrivateHandle k => private_key_size P k
  | PublicHandle k => public_key_size P k
  end.

Definition public_numbers (self : RSAKey) : RSAPublicNumbers.t :=
  match key self with
  | PrivateHandle k => private_public_numbers P k
  | PublicHandle k => public_key_numbers P k
  end.

Definition get_name (self : RSAKey) : string := "ssh-rsa".

Definition asbytes (self : RSAKey) : result bytes :=
  m1 <- Message.add_string Message.new
          (list_byte_of_string (get_name self)) ;;
  m2 <- Message.add_mpint m1 (RSAPublicNumbers.e (public_numbers self)) ;;
  m3 <- Message.add_mpint m2 (RSAPublicNumbers.n (public_numbers self)) ;;
  Ok (Message.asbytes m3).

(** Python's built-in [hash] is taken from the interpreter: [hash_str] is
    its value on a [str] (seeded per process), [hash_int] its value on an
    [int] (it depends on the interpreter's version and word size).

    [hash_combination] is the value of [h] when the [return] of [__hash__]
    is reached. *)
Definition hash_combination (hash_str : string -> Z) (hash_int : Z -> Z)
    (self : RSAKey) : Z :=
  let h := hash_str (get_name self) in
  let h := h * 37 + hash_int (RSAPublicNumbers.e (public_numbers self)) in
  let h := h * 37 + hash_int (RSAPublicNumbers.n (public_numbers self)) in
  h.

Definition __hash__ (hash_str : string -> Z) (hash_int : Z -> Z)
    (self : RSAKey) : Z :=
  hash_int (hash_combination hash_str hash_int self).

Definition get_bits (self : RSAKey) : Z := size self.

Definition can_sign (self : RSAKey) : bool :=
  match key self with
  | PrivateHandle _ => true
  | PublicHandle _ => false
  end.

(** The signature over [data] under [kwargs = dict(padding, algorithm)],
    through whichever call shape the provider's key offers. *)
Definition provider_sign (k : RSAPrivateKey P) (data : bytes)
    (padding : Padding) (algorithm : HashAlgorithm) : result bytes :=
  if has_sign P
  then private_sign P k data padding algorithm
  else
    signer <- private_signer P k padding algorithm ;;
    signer <- signer_update P signer data ;;
    signer_finalize P signer.

Definition sign_ssh_data (self : RSAKey) (data : bytes) : result Message.t :=
  sig <-
    match key self with
    | PrivateHandle k => provider_sign k data PKCS1v15 SHA1
    | PublicHandle _ => Raise (AttributeError "signer")
    end ;;
  m <- Message.add_string Message.new (list_byte_of_string "ssh-rsa") ;;
  Message.add_string m sig.

(** The body of the [try] block of [verify_ssh_sig]: the provider checks
    [signature] over [data], through whichever call shape the key offers. *)
Definition provider_verify (k : RSAPublicKey P) (signature data : bytes)
    (padding : Padding) (algorithm : HashAlgorithm) : result unit :=
  if has_verify P
  then public_verify P k signature data padding algorithm
  else
    verifier <- public_verifier P k signature padding algorithm ;;
    verifier <- verifier_update P verifier data ;;
    verifier_verify P verifier.

(** The public key that [verify_ssh_sig] checks against. *)
Definition verification_key (self : RSAKey) : RSAPublicKey P :=
  match key self with
  | PrivateHandle k => private_public_key P k
  | PublicHandle k => k
  end.

Definition verify_ssh_sig (self : RSAKey) (data : bytes) (msg : Message.t)
    : result bool :=
  '(tag, msg) <- Message.get_text msg ;;
  if negb (tag =? "ssh-rsa")%string
  then Ok false
  else
    let key := verification_key self in
    '(signature, _) <- Message.get_binary msg ;;
    match provider_verify key signature data PKCS1v15 SHA1 with
    | Raise InvalidSignature => Ok false
    | Raise e => Raise e
    | Ok _ => Ok true
    end.

(** [RSAKey.generate]: [ent] is the randomness the provider draws. *)
Definition generate {Progress : Type} (ent : Entropy P) (bits : Z)
    (progress_func : option Progress) : result RSAKey :=
  k <- generate_private_key P ent 65537 bits ;;
  '(self, _) <- __init__ {| arg_msg := None; arg_data := None;
                            arg_filename := None; arg_password := None;
                            arg_key := Some (PrivateHandle k);
                            arg_file_obj := None |} ;;
  Ok self.

(** Modelled from the spec: [PKey.__eq__] lives in [paramiko/pkey.py],
    which is missing from the sources.  The spec: two keys are equal iff
    algorithm name and [(e, n)] are equal. *)
Definition RSAKey_eq (a b : RSAKey) : bool :=
  (get_name a =? get_name b)%string
  && (RSAPublicNumbers.e (public_numbers a)
      =? RSAPublicNumbers.e (public_numbers b))
  && (RSAPublicNumbers.n (public_numbers a)
      =? RSAPublicNumbers.n (public_numbers b)).

End RSAKey.

Arguments PrivateHandle {P} k.
Arguments PublicHandle {P} k.
Arguments key {P} r.
Arguments no_args {P B}.
Arguments arg_msg {P B} i.
Arguments arg_data {P B} i.
Arguments arg_filename {P B} i.
Arguments arg_password {P B} i.
Arguments arg_key {P B} i.
Arguments arg_file_obj {P B} i.


(** ** A deterministic test provider

    A stand-in for the crypto provider that computes: keys are plain records
    of numbers, a signature is a tag built from the scheme, the modulus and
    the payload.  [sha1_allowed] plays a backend whose policy refuses SHA-1
    (as a FIPS-restricted build does). *)
Module Toy.

Record PrivateKey : Type := { pub : RSAPublicNumbers.t; d : Z }.

Definition check_numbers (pn : RSAPublicNumbers.t)
    : result RSAPublicNumbers.t :=
  let e := RSAPublicNumbers.e pn in
  let n := RSAPublicNumbers.n pn in
  if n <? 3 then Raise (ValueError "n must be >= 3.")
  else if (e <? 3) || (n <=? e) then Raise (ValueError "e must be >= 3 and < n.")
  else if Z.even e then Raise (ValueError "e must be odd.")
  else Ok pn.

Definition key_size (pn : RSAPublicNumbers.t) : Z :=
  Z.log2 (RSAPublicNumbers.n pn) + 1.

Definition scheme_code (p : Padding) (h : HashAlgorithm) : bytes :=
  [ match p with PKCS1v15 => x01 | PSS => x02 | OAEP => x03 end;
    match h with SHA1 => x01 | SHA256 => x02 | SHA512 => x03 end ].

Definition tag (pn : RSAPublicNumbers.t) (p : Padding) (h : HashAlgorithm)
    (data : bytes) : bytes :=
  scheme_code p h ++ deflate_long (RSAPublicNumbers.n pn) ++ rev data.

Definition supported (sha1_allowed : bool) (h : HashAlgorithm) : bool :=
  match h with SHA1 => sha1_allowed | _ => true end.

Definition sign (sha1_allowed : bool) (k : PrivateKey) (data : bytes)
    (p : Padding) (h : HashAlgorithm) : result bytes :=
  if supported sha1_allowed h
  then Ok (tag (pub k) p h data)
  else Raise (UnsupportedAlgorithm "sha1 is not supported by this backend").

Definition verify (sha1_allowed : bool) (k : RSAPublicNumbers.t)
    (signature data : bytes) (p : Padding) (h : HashAlgorithm) : result unit :=
  if supported sha1_allowed h
  then if bytes_eqb signature (tag k p h data)
       then Ok tt else Raise InvalidSignature
  else Raise (UnsupportedAlgorithm "sha1 is not supported by this backend").

Record SignerCtx : Type :=
  { s_key : PrivateKey; s_pad : Padding; s_hash : HashAlgorithm;
    s_data : bytes }.

Record VerifierCtx : Type :=
  { v_key : RSAPublicNumbers.t; v_sig : bytes; v_pad : Padding;
    v_hash : HashAlgorithm; v_data : bytes }.

Definition generate (ent pe bits : Z) : result PrivateKey :=
  if bits <? 512
  then Raise (ValueError "key_size must be at least 512-bits.")
  else Ok {| pub := RSAPublicNumbers.mk pe (2 ^ (bits - 1) + 1); d := ent |}.

(** The toy container: a type byte, then for an RSA key the three numbers
    [e], [n], [d] as mpints. *)
Definition load_der (data : bytes) : result (PrivateKeyObject PrivateKey) :=
  match data with
  | x30 :: body =>
      let parsed :=
        '(e, m1) <- Message.get_mpint (Message.of_bytes body) ;;
        '(n, m2) <- Message.get_mpint m1 ;;
        '(d, _) <- Message.get_mpint m2 ;;
        Ok {| pub := RSAPublicNumbers.mk e n; d := d |} in
      match parsed with
      | Ok k => Ok (LoadedRSA k)
      | Raise _ => Raise (ValueError "Could not deserialize key data.")
      end
  | x04 :: _ => Ok LoadedEC
  | _ => Raise (ValueError "Could not deserialize key data.")
  end.

Definition provider (sha1_allowed : bool) : CryptoProvider :=
  {| RSAPrivateKey := PrivateKey;
     RSAPublicKey := RSAPublicNumbers.t;
     Signer := SignerCtx;
     Verifier := VerifierCtx;
     Entropy := Z;
     numbers_public_key := check_numbers;
     public_key_numbers := fun k => k;
     private_public_numbers := pub;
     private_public_key := pub;
     public_key_size := key_size;
     private_key_size := fun k => key_size (pub k);
     has_sign := true;
     has_verify := true;
     private_sign := sign sha1_allowed;
     private_signer := fun k p h =>
       if supported sha1_allowed h
       then Ok {| s_key := k; s_pad := p; s_hash := h; s_data := [] |}
       else Raise (UnsupportedAlgorithm "sha1 is not supported by this backend");
     signer_update := fun s b =>
       Ok {| s_key := s_key s; s_pad := s_pad s; s_hash := s_hash s;
             s_data := s_data s ++ b |};
     signer_finalize := fun s =>
       sign sha1_allowed (s_key s) (s_data s) (s_pad s) (s_hash s);
     public_verify := verify sha1_allowed;
     public_verifier := fun k sg p h =>
       if supported sha1_allowed h
       then Ok {| v_key := k; v_sig := sg; v_pad := p; v_hash := h;
                  v_data := [] |}
       else Raise (UnsupportedAlgorithm "sha1 is not supported by this backend");
     verifier_update := fun v b =>
       Ok {| v_key := v_key v; v_sig := v_sig v; v_pad := v_pad v;
             v_hash := v_hash v; v_data := v_data v ++ b |};
     verifier_verify := fun v =>
       verify sha1_allowed (v_key v) (v_sig v) (v_data v) (v_pad v) (v_hash v);
     generate_private_key := generate;
     load_der_private_key := load_der |}.

(** Streams are their content; the only file is [id_rsa]. *)
Definition der_of (k : PrivateKey) : bytes :=
  match
    m1 <- Message.add_mpint Message.new (RSAPublicNumbers.e (pub k)) ;;
    m2 <- Message.add_mpint m1 (RSAPublicNumbers.n (pub k)) ;;
    Message.add_mpint m2 (d k)
  with
  | Ok m => x30 :: Message.asbytes m
  | Raise _ => []
  end.

Definition small_key : PrivateKey :=
  {| pub := RSAPublicNumbers.mk 17 3233; d := 2753 |}.

Definition base : PKeyBase :=
  {| FileObj := bytes;
     _read_private_key := fun _ content _ => Ok content;
     _read_private_key_file := fun _ name _ =>
       if (name =? "id_rsa")%string then Ok (der_of small_key)
       else Raise (IOError "No such file or directory") |}.

End Toy.

(** ** Sample values for the test provider *)

Module Sample.

Definition toy : CryptoProvider := Toy.provider true.

(** A backend whose policy refuses SHA-1. *)
Definition no_sha1 : CryptoProvider := Toy.provider false.

Definition private_key : RSAKey toy :=
  {| key := PrivateHandle (P := toy) Toy.small_key |}.

Definition public_key : RSAKey toy :=
  {| key := PublicHandle (P := toy) (RSAPublicNumbers.mk 17 3233) |}.

(** The blob [string "ssh-rsa" || mpint 17 || mpint 3233]. *)
Definition blob : bytes :=
  field (list_byte_of_string "ssh-rsa") ++ field [x11] ++ field [x0c; xa1].

(** The blob of another key: [string "ssh-rsa" || mpint 5 || mpint 21]. *)
Definition other_blob : bytes :=
  field (list_byte_of_string "ssh-rsa") ++ field [x05] ++ field [x15].

(** A blob with the tag of another algorithm. *)
Definition dss_blob : bytes :=
  field (list_byte_of_string "ssh-dss") ++ field [x11] ++ field [x0c; xa1].

Definition payload : bytes := list_byte_of_string "ab".

(** The toy signature of [payload] under [private_key], and the signature
    message that carries it. *)
Definition signature : bytes :=
  Toy.tag (RSAPublicNumbers.mk 17 3233) PKCS1v15 SHA1 payload.

Definition signature_message : Message.t :=
  Message.of_bytes (field (list_byte_of_string "ssh-rsa") ++ field signature).

(** [RSAKey(data=d)] *)
Definition from_data (d : bytes) : InitArgs toy Toy.base :=
  {| arg_msg := None; arg_data := Some d; arg_filename := None;
     arg_password := None; arg_key := None; arg_file_obj := None |}.

(** [RSAKey(msg=m)] *)
Definition from_msg (m : Message.t) : InitArgs toy Toy.base :=
  {| arg_msg := Some m; arg_data := None; arg_filename := None;
     arg_password := None; arg_key := None; arg_file_obj := None |}.

(** [RSAKey(msg=m, key=k)] *)
Definition from_msg_and_key (m : Message.t) (k : Toy.PrivateKey)
    : InitArgs toy Toy.base :=
  {| arg_msg := Some m; arg_data := None; arg_filename := None;
     arg_password := None; arg_key := Some (PrivateHandle (P := toy) k);
     arg_file_obj := None |}.

(** A handle with the two numbers of [public_key] exchanged. *)
Definition exchanged_key : RSAKey toy :=
  {| key := PublicHandle (P := toy) (RSAPublicNumbers.mk 3233 17) |}.

(** One interpreter: [hash("ssh-rsa")] as CPython 3.11 computes it with
    [PYTHONHASHSEED=0], and [hash] of an [int] on 64-bit CPython 3 (the
    value is reduced modulo the Mersenne prime [2^61 - 1], keeps its sign,
    and [-1] is replaced by [-2]). *)
Definition hash_str (s : string) : Z := -2711221462787355130.

Definition hash_int (x : Z) : Z :=
  let h := Z.sgn x * (Z.abs x mod (2 ^ 61 - 1)) in
  if h =? -1 then -2 else h.

End Sample.

(** ** More providers and calls for the test provider *)

(** The provider [P] with another private-key parser. *)
Definition with_loader (P : CryptoProvider)
    (load : bytes -> result (PrivateKeyObject (RSAPrivateKey P)))
    : CryptoProvider :=
  {| RSAPrivateKey := RSAPrivateKey P;
     RSAPublicKey := RSAPublicKey P;
     Signer := Signer P;
     Verifier := Verifier P;
     Entropy := Entropy P;
     numbers_public_key := numbers_public_key P;
     public_key_numbers := public_key_numbers P;
     private_public_numbers := private_public_numbers P;
     private_public_key := private_public_key P;
     public_key_size := public_key_size P;
     private_key_size := private_key_size P;
     has_sign := has_sign P;
     has_verify := has_verify P;
     private_sign := private_sign P;
     private_signer := private_signer P;
     signer_update := signer_update P;
     signer_finalize := signer_finalize P;
     public_verify := public_verify P;
     public_verifier := public_verifier P;
     verifier_update := verifier_update P;
     verifier_verify := verifier_verify P;
     generate_private_key := generate_private_key P;
     load_der_private_key := load |}.

(** The provider [P] with keys that offer, or lack, the one-call [sign] and
    [verify] methods. *)
Definition with_api (P : CryptoProvider) (sign verify : bool)
    : CryptoProvider :=
  {| RSAPrivateKey := RSAPrivateKey P;
     RSAPublicKey := RSAPublicKey P;
     Signer := Signer P;
     Verifier := Verifier P;
     Entropy := Entropy P;
     numbers_public_key := numbers_public_key P;
     public_key_numbers := public_key_numbers P;
     private_public_numbers := private_public_numbers P;
     private_public_key := private_public_key P;
     public_key_size := public_key_size P;
     private_key_size := private_key_size P;
     has_sign := sign;
     has_verify := verify;
     private_sign := private_sign P;
     private_signer := private_signer P;
     signer_update := signer_update P;
     signer_finalize := signer_finalize P;
     public_verify := public_verify P;
     public_verifier := public_verifier P;
     verifier_update := verifier_update P;
     verifier_verify := verifier_verify P;
     generate_private_key := generate_private_key P;
     load_der_private_key := load_der_private_key P |}.

Module Fixture.

(** An older provider: its keys have no [sign] and no [verify] method, only
    the [signer] and [verifier] contexts. *)
Definition legacy : CryptoProvider := with_api Sample.toy false false.

Definition legacy_private : RSAKey legacy :=
  {| key := PrivateHandle (P := legacy) Toy.small_key |}.

Definition legacy_public : RSAKey legacy :=
  {| key := PublicHandle (P := legacy) (RSAPublicNumbers.mk 17 3233) |}.

(** An older provider whose policy refuses SHA-1. *)
Definition legacy_no_sha1 : CryptoProvider :=
  with_api Sample.no_sha1 false false.

(** A message that ends after the algorithm name. *)
Definition name_only : Message.t :=
  Message.of_bytes (field (list_byte_of_string "ssh-rsa")).

(** A parser that meets an encrypted container: with [password=None] the
    provider raises [TypeError]. *)
Definition encrypted : CryptoProvider :=
  with_loader Sample.toy
    (fun _ => Raise
       (TypeError "Password was not given but private key is encrypted")).

(** [RSAKey(filename=name, msg=m, key=k)] *)
Definition from_file (name : string) (m : Message.t) (k : Toy.PrivateKey)
    : InitArgs Sample.toy Toy.base :=
  {| arg_msg := Some m; arg_data := None; arg_filename := Some name;
     arg_password := None;
     arg_key := Some (PrivateHandle (P := Sample.toy) k);
     arg_file_obj := None |}.

(** [RSAKey(file_obj=content, password=pw)] *)
Definition from_stream (content : FileObj Toy.base) (pw : string)
    : InitArgs Sample.toy Toy.base :=
  {| arg_msg := None; arg_data := None; arg_filename := None;
     arg_password := Some pw; arg_key := None;
     arg_file_obj := Some content |}.

(** Another private key with the public numbers of [Toy.small_key]. *)
Definition other_private : Toy.PrivateKey :=
  {| Toy.pub := RSAPublicNumbers.mk 17 3233; Toy.d := 1 |}.

End Fixture.

(** * Properties *)

(** ** The error monad *)

Lemma bind_inv_ok {A B : Type} (c : result A) (k : A -> result B) (b : B) :
  bind c k = Ok b -> exists a, c = Ok a /\ k a = Ok b.
Proof. destruct c as [a|e]; simpl; [eauto | discriminate]. Qed.

(** ** Big-endian byte strings *)

Lemma byte_to_Z_range (b : byte) : 0 <= byte_to_Z b < 256.
Proof.
  unfold byte_to_Z. pose proof (Byte.to_N_bounded b) as H.
  split; [apply N2Z.is_nonneg | lia].
Qed.

Lemma byte_to_of_Z (z : Z) : byte_to_Z (byte_of_Z z) = z mod 256.
Proof.
  unfold byte_of_Z, byte_to_Z.
  assert (Hr : 0 <= z mod 256 < 256) by (apply Z.mod_pos_bound; lia).
  destruct (Byte.of_N (Z.to_N (z mod 256))) as [b|] eqn:E.
  - apply Byte.to_of_N in E. rewrite E. rewrite Z2N.id; lia.
  - apply Byte.of_N_None_iff in E. lia.
Qed.

Lemma byte_of_to_Z (b : byte) : byte_of_Z (byte_to_Z b) = b.
Proof.
  unfold byte_of_Z. pose proof (byte_to_Z_range b) as Hr.
  rewrite Z.mod_small by exact Hr.
  unfold byte_to_Z. rewrite N2Z.id, Byte.of_to_N. reflexivity.
Qed.

Lemma be_bytes_length (k : nat) (z : Z) : length (be_bytes k z) = k.
Proof.
  revert z. induction k as [|k IH]; intros z; simpl.
  - reflexivity.
  - rewrite length_app, IH. simpl. lia.
Qed.

Lemma be_value_snoc (bs : bytes) (b : byte) :
  be_value (bs ++ [b]) = be_value bs * 256 + byte_to_Z b.
Proof. unfold be_value. rewrite fold_left_app. reflexivity. Qed.

Lemma be_value_range (bs : bytes) :
  0 <= be_value bs < 256 ^ Z.of_nat (length bs).
Proof.
  induction bs as [|b bs IH] using rev_ind.
  - simpl. unfold be_value. simpl. lia.
  - rewrite be_value_snoc, length_app. simpl length.
    replace (Z.of_nat (length bs + 1)) with (Z.of_nat (length bs) + 1) by lia.
    rewrite Z.pow_add_r by lia. change (256 ^ 1) with 256.
    pose proof (byte_to_Z_range b). nia.
Qed.

Lemma be_value_be_bytes (k : nat) (z : Z) :
  be_value (be_bytes k z) = z mod 256 ^ Z.of_nat k.
Proof.
  revert z. induction k as [|k IH]; intros z.
  - simpl. unfold be_value. simpl. rewrite Z.mod_1_r. reflexivity.
  - simpl be_bytes. rewrite be_value_snoc, IH, byte_to_of_Z.
    replace (Z.of_nat (S k)) with (1 + Z.of_nat k) by lia.
    rewrite Z.pow_add_r by lia. change (256 ^ 1) with 256.
    assert (Hp : 0 < 256 ^ Z.of_nat k) by (apply Z.pow_pos_nonneg; lia).
    rewrite Z.rem_mul_r by lia. lia.
Qed.

Lemma be_value_cons (b : byte) (bs : bytes) :
  be_value (b :: bs) = byte_to_Z b * 256 ^ Z.of_nat (length bs) + be_value bs.
Proof.
  revert b. induction bs as [|c bs IH] using rev_ind; intros b.
  - unfold be_value. simpl. lia.
  - rewrite app_comm_cons, !be_value_snoc, IH, length_app. simpl length.
    replace (Z.of_nat (length bs + 1)) with (Z.of_nat (length bs) + 1) by lia.
    rewrite Z.pow_add_r by lia. change (256 ^ 1) with 256. ring.
Qed.

Lemma be_bytes_be_value (bs : bytes) :
  be_bytes (length bs) (be_value bs) = bs.
Proof.
  induction bs as [|b bs IH] using rev_ind.
  - reflexivity.
  - rewrite length_app. simpl length. rewrite Nat.add_comm. simpl be_bytes.
    rewrite be_value_snoc. pose proof (byte_to_Z_range b) as Hb.
    replace ((be_value bs * 256 + byte_to_Z b) / 256) with (be_value bs)
      by (apply Z.div_unique with (r := byte_to_Z b); lia).
    rewrite IH. f_equal. f_equal.
    rewrite <- (byte_of_to_Z b) at 2. unfold byte_of_Z.
    replace ((be_value bs * 256 + byte_to_Z b) mod 256) with (byte_to_Z b mod 256);
      [reflexivity|].
    symmetry. rewrite Z.add_comm, Z.mod_add by lia. reflexivity.
Qed.

(** ** The mpint body *)

Lemma pow256_pos (k : Z) : 0 <= k -> 0 < 256 ^ k.
Proof. intros Hk. apply Z.pow_pos_nonneg; lia. Qed.

Lemma sign_bound_pow (q : Z) : 0 <= q -> 128 * 256 ^ q = 2 ^ (8 * q + 7).
Proof.
  intros Hq. rewrite Z.pow_add_r by lia.
  change 256 with (2 ^ 8). rewrite <- Z.pow_mul_r by lia.
  change (2 ^ 7) with 128. lia.
Qed.

Lemma signed_bits_nonneg (z : Z) : 0 <= signed_bits z.
Proof. unfold signed_bits. destruct (0 <=? z); apply Z.log2_up_nonneg. Qed.

Lemma signed_bits_spec (z : Z) :
  - 2 ^ signed_bits z <= z < 2 ^ signed_bits z.
Proof.
  unfold signed_bits. destruct (Z.leb_spec 0 z) as [Hz|Hz].
  - assert (H : 0 < z + 1) by lia.
    apply Z.log2_log2_up_spec in H.
    assert (0 < 2 ^ Z.log2_up (z + 1))
      by (apply Z.pow_pos_nonneg; [lia | apply Z.log2_up_nonneg]).
    lia.
  - assert (H : 0 < - z) by lia.
    apply Z.log2_log2_up_spec in H. lia.
Qed.

(** A nonzero number fits, sign bit included, in the bytes [mpint_size]
    allots to it. *)
Lemma mpint_size_bound (z : Z) :
  z <> 0 ->
  exists k, mpint_size z = S k /\
            - (128 * 256 ^ Z.of_nat k) <= z < 128 * 256 ^ Z.of_nat k.
Proof.
  intros Hz. unfold mpint_size.
  destruct (Z.eqb_spec z 0) as [|_]; [contradiction|].
  pose proof (signed_bits_nonneg z) as Hb.
  pose proof (signed_bits_spec z) as Hs.
  set (b := signed_bits z) in *.
  assert (Hq : 0 <= b / 8) by (apply Z.div_pos; lia).
  exists (Z.to_nat (b / 8)). split.
  - rewrite Z2Nat.inj_add by lia. simpl (Z.to_nat 1). lia.
  - rewrite Z2Nat.id by lia. rewrite sign_bound_pow by lia.
    assert (Hle : 2 ^ b <= 2 ^ (8 * (b / 8) + 7)).
    { apply Z.pow_le_mono_r; [lia|].
      pose proof (Z.mod_pos_bound b 8 ltac:(lia)).
      pose proof (Z.div_mod b 8 ltac:(lia)). lia. }
    lia.
Qed.

(** Decoding an mpint body gives back the number that was encoded. *)
Lemma inflate_deflate_long (z : Z) : inflate_long (deflate_long z) = z.
Proof.
  destruct (Z.eq_dec z 0) as [->|Hz]; [reflexivity|].
  destruct (mpint_size_bound z Hz) as (k & Hk & Hlo & Hhi).
  unfold deflate_long. rewrite Hk.
  pose proof (be_value_be_bytes (S k) z) as Hv.
  pose proof (be_bytes_length (S k) z) as Hl.
  destruct (be_bytes (S k) z) as [|b t]; [discriminate|].
  simpl in Hl. injection Hl as Hl.
  rewrite be_value_cons, Hl in Hv.
  pose proof (be_value_range t) as Ht. rewrite Hl in Ht.
  pose proof (byte_to_Z_range b) as Hb.
  pose proof (pow256_pos (Z.of_nat k) ltac:(lia)) as HX.
  replace (Z.of_nat (S k)) with (1 + Z.of_nat k) in Hv by lia.
  rewrite Z.pow_add_r in Hv by lia. change (256 ^ 1) with 256 in Hv.
  unfold inflate_long. rewrite be_value_cons. simpl length. rewrite Hl.
  replace (Z.of_nat (S k)) with (1 + Z.of_nat k) by lia.
  rewrite Z.pow_add_r by lia. change (256 ^ 1) with 256.
  set (X := 256 ^ Z.of_nat k) in *.
  destruct (Z_le_gt_dec 0 z) as [Hpos|Hneg].
  - rewrite Z.mod_small in Hv by nia.
    destruct (Z.leb_spec 128 (byte_to_Z b)); [nia | lia].
  - assert (Hm : z mod (256 * X) = z + 256 * X).
    { symmetry. apply Z.mod_unique with (q := -1); nia. }
    rewrite Hm in Hv.
    destruct (Z.leb_spec 128 (byte_to_Z b)); [lia | nia].
Qed.

(** For a positive number the first byte of the body never has its top bit
    set: that is the leading zero byte of the SSH rule. *)
Lemma deflate_long_sign_safe (z : Z) (b : byte) (t : bytes) :
  0 < z -> deflate_long z = b :: t -> byte_to_Z b < 128.
Proof.
  intros Hz E. pose proof (inflate_deflate_long z) as H.
  rewrite E in H. unfold inflate_long in H.
  destruct (Z.leb_spec 128 (byte_to_Z b)); [|assumption].
  pose proof (be_value_range (b :: t)). lia.
Qed.

Example deflate_long_examples :
  deflate_long 0 = [] /\
  deflate_long 127 = [x7f] /\
  deflate_long 128 = [x00; x80] /\
  deflate_long 65537 = [x01; x00; x01] /\
  deflate_long (-1) = [xff].
Proof. repeat split; reflexivity. Qed.

(** ** Reading back what the message writers wrote *)

Lemma get_bytes_prefix (m : Message.t) (s r : bytes) :
  Message.remaining m = s ++ r ->
  exists m', Message.get_bytes m (length s) = Ok (s, m') /\
             Message.remaining m' = r.
Proof.
  intros H. unfold Message.get_bytes. rewrite H.
  rewrite length_app.
  destruct (Nat.leb_spec (length s) (length s + length r)) as [_|]; [|lia].
  eexists. split.
  - rewrite firstn_app, Nat.sub_diag, firstn_all. simpl.
    rewrite app_nil_r. reflexivity.
  - unfold Message.remaining in *. simpl.
    rewrite Nat.add_comm, <- skipn_skipn, H.
    rewrite skipn_app, Nat.sub_diag, skipn_all. reflexivity.
Qed.

Lemma get_int_prefix (m : Message.t) (v : Z) (r : bytes) :
  0 <= v < 2 ^ 32 ->
  Message.remaining m = be_bytes 4 v ++ r ->
  exists m', Message.get_int m = Ok (v, m') /\ Message.remaining m' = r.
Proof.
  intros Hv H.
  destruct (get_bytes_prefix m _ _ H) as (m' & Hg & Hr).
  rewrite be_bytes_length in Hg.
  exists m'. split; [|exact Hr].
  unfold Message.get_int. rewrite Hg. cbn [bind].
  rewrite be_value_be_bytes. change (256 ^ Z.of_nat 4) with (2 ^ 32).
  rewrite Z.mod_small by exact Hv. reflexivity.
Qed.

Lemma get_string_prefix (m : Message.t) (s r : bytes) :
  Z.of_nat (length s) < 2 ^ 32 ->
  Message.remaining m = field s ++ r ->
  exists m', Message.get_string m = Ok (s, m') /\ Message.remaining m' = r.
Proof.
  intros Hs H. unfold field in H. rewrite <- app_assoc in H.
  assert (Hv : 0 <= Z.of_nat (length s) < 2 ^ 32) by lia.
  destruct (get_int_prefix m _ _ Hv H) as (m1 & Hi & Hr1).
  destruct (get_bytes_prefix m1 _ _ Hr1) as (m2 & Hb & Hr2).
  exists m2. split; [|exact Hr2].
  unfold Message.get_string. rewrite Hi. cbn [bind].
  rewrite Nat2Z.id. exact Hb.
Qed.

Lemma get_text_prefix (m : Message.t) (s : string) (r : bytes) :
  Z.of_nat (length (list_byte_of_string s)) < 2 ^ 32 ->
  Message.remaining m = field (list_byte_of_string s) ++ r ->
  exists m', Message.get_text m = Ok (s, m') /\ Message.remaining m' = r.
Proof.
  intros Hs H.
  destruct (get_string_prefix m _ _ Hs H) as (m' & Hg & Hr).
  exists m'. split; [|exact Hr].
  unfold Message.get_text. rewrite Hg. cbn [bind].
  rewrite string_of_list_byte_of_string. reflexivity.
Qed.

Lemma get_mpint_prefix (m : Message.t) (z : Z) (r : bytes) :
  Z.of_nat (length (deflate_long z)) < 2 ^ 32 ->
  Message.remaining m = field (deflate_long z) ++ r ->
  exists m', Message.get_mpint m = Ok (z, m') /\ Message.remaining m' = r.
Proof.
  intros Hs H.
  destruct (get_string_prefix m _ _ Hs H) as (m' & Hg & Hr).
  exists m'. split; [|exact Hr].
  unfold Message.get_mpint, Message.get_binary. rewrite Hg. cbn [bind].
  rewrite inflate_deflate_long. reflexivity.
Qed.

Lemma add_string_ok (m m' : Message.t) (s : bytes) :
  Message.add_string m s = Ok m' ->
  Z.of_nat (length s) < 2 ^ 32 /\
  Message.packet m' = Message.packet m ++ field s /\
  Message.pos m' = Message.pos m.
Proof.
  unfold Message.add_string, Message.add_int. intros H.
  destruct (Z.leb_spec 0 (Z.of_nat (length s))); [|lia].
  destruct (Z.ltb_spec (Z.of_nat (length s)) (2 ^ 32)); simpl in H;
    [|discriminate].
  injection H as <-. simpl. unfold field. rewrite <- app_assoc.
  split; [assumption|]. split; reflexivity.
Qed.

Lemma add_string_fits (m : Message.t) (s : bytes) :
  Z.of_nat (length s) < 2 ^ 32 ->
  Message.add_string m s =
    Ok (Message.mk (Message.packet m ++ field s) (Message.pos m)).
Proof.
  intros Hs. unfold Message.add_string, Message.add_int.
  destruct (Z.leb_spec 0 (Z.of_nat (length s))); [|lia].
  destruct (Z.ltb_spec (Z.of_nat (length s)) (2 ^ 32)); [|lia].
  simpl. unfold Message.add_bytes, field. simpl.
  rewrite <- app_assoc. reflexivity.
Qed.

(** ** The toy provider keeps the provider's promises *)

Lemma toy_check_numbers_ok (pn pk : RSAPublicNumbers.t) :
  Toy.check_numbers pn = Ok pk -> pk = pn.
Proof.
  unfold Toy.check_numbers.
  destruct (RSAPublicNumbers.n pn <? 3); [discriminate|].
  destruct ((RSAPublicNumbers.e pn <? 3)
            || (RSAPublicNumbers.n pn <=? RSAPublicNumbers.e pn));
    [discriminate|].
  destruct (Z.even (RSAPublicNumbers.e pn)); [discriminate|].
  intros H. injection H as <-. reflexivity.
Qed.

Lemma toy_laws (sha1_allowed : bool) : ProviderLaws (Toy.provider sha1_allowed).
Proof.
  split.
  - intros pn pk H. simpl in *. apply toy_check_numbers_ok. exact H.
  - intros ent pe bits sk H. simpl in *. unfold Toy.generate in H.
    destruct (Z.ltb_spec bits 512) as [|Hb]; [discriminate|].
    injection H as <-. simpl. split; [reflexivity|].
    unfold Toy.key_size. simpl.
    assert (Hp : 2 <= 2 ^ (bits - 1)).
    { change 2 with (2 ^ 1) at 1. apply Z.pow_le_mono_r; lia. }
    rewrite (Z.log2_unique (2 ^ (bits - 1) + 1) (bits - 1)); [lia | lia |].
    replace (bits - 1 + 1) with (Z.succ (bits - 1)) by lia.
    rewrite Z.pow_succ_r by lia. lia.
Qed.

(** ** Construction *)

Section Construction.

Context (P : CryptoProvider) (B : PKeyBase).

Lemma public_numbers_eta (pn : RSAPublicNumbers.t) :
  RSAPublicNumbers.mk (RSAPublicNumbers.e pn) (RSAPublicNumbers.n pn) = pn.
Proof. destruct pn. reflexivity. Qed.

(** The message path of the constructor, once the sources that come before
    it are absent: [m] is the given message, or the raw data wrapped. *)
Lemma init_reads_message (a : InitArgs P B) (m : Message.t) :
  arg_file_obj a = None -> arg_filename a = None -> arg_key a = None ->
  (arg_msg a = Some m \/
   arg_msg a = None /\ arg_data a = Some (Message.packet m) /\
   Message.pos m = O) ->
  __init__ P B a =
    ('(tag, m1) <- Message.get_text m ;;
     if negb (tag =? "ssh-rsa")%string
     then Raise (SSHException "Invalid key")
     else
       '(e, m2) <- Message.get_mpint m1 ;;
       '(n, m3) <- Message.get_mpint m2 ;;
       pk <- numbers_public_key P (RSAPublicNumbers.mk e n) ;;
       Ok ({| key := PublicHandle pk |}, Some m3)).
Proof.
  intros Hf Hn Hk Hsrc. unfold __init__. rewrite Hf, Hn, Hk.
  destruct Hsrc as [-> | (-> & -> & Hpos)]; [reflexivity|].
  destruct m as [pkt p]. simpl in Hpos. subst p. reflexivity.
Qed.

(** C9. When the constructor is given both a parsed message [msg] and raw
    bytes [data], the raw bytes are ignored: the outcome is that of the same
    call without [data], whatever the other arguments are. *)
Theorem msg_given_data_ignored (m : Message.t) (d : option bytes)
    (filename password : option string) (k : option (KeyHandle P))
    (file_obj : option (FileObj B)) :
  __init__ P B {| arg_msg := Some m; arg_data := d;
                  arg_filename := filename; arg_password := password;
                  arg_key := k; arg_file_obj := file_obj |} =
  __init__ P B {| arg_msg := Some m; arg_data := None;
                  arg_filename := filename; arg_password := password;
                  arg_key := k; arg_file_obj := file_obj |}.
Proof. unfold __init__. simpl. reflexivity. Qed.

(** C3 (as the code has it).  The constructor takes its source in the order
    stream, path, explicit key handle, message or raw data: a stream settles
    the outcome whatever else is given; without a stream a path does; without
    either an explicit key handle is stored as it is and no message is read;
    only without all three is the message (or the wrapped raw data) parsed,
    and with no source at all construction fails with "Key object may not be
    empty". *)
Theorem init_source_priority (a : InitArgs P B) :
  (forall f, arg_file_obj a = Some f ->
     __init__ P B a =
       (k <- _from_private_key P B f (arg_password a) ;; Ok (k, arg_msg a)))
  /\ (forall fn, arg_file_obj a = None -> arg_filename a = Some fn ->
     __init__ P B a =
       (k <- _from_private_key_file P B fn (arg_password a) ;;
        Ok (k, arg_msg a)))
  /\ (forall h, arg_file_obj a = None -> arg_filename a = None ->
     arg_key a = Some h ->
     exists m, __init__ P B a = Ok ({| key := h |}, m) /\
               (forall m0, arg_msg a = Some m0 -> m = Some m0))
  /\ (forall m, arg_file_obj a = None -> arg_filename a = None ->
     arg_key a = None ->
     (arg_msg a = Some m \/
      arg_msg a = None /\ exists d, arg_data a = Some d /\ m = Message.of_bytes d) ->
     __init__ P B a =
       __init__ P B {| arg_msg := Some m; arg_data := None;
                       arg_filename := None; arg_password := None;
                       arg_key := None; arg_file_obj := None |})
  /\ (arg_file_obj a = None -> arg_filename a = None -> arg_key a = None ->
      arg_msg a = None -> arg_data a = None ->
      __init__ P B a = Raise (SSHException "Key object may not be empty")).
Proof.
  unfold __init__. repeat split.
  - intros f ->. reflexivity.
  - intros fn -> ->. reflexivity.
  - intros h -> -> ->. eexists. split; [reflexivity|].
    intros m0 ->. reflexivity.
  - intros m -> -> -> [-> | [-> (d & -> & ->)]]; reflexivity.
  - intros -> -> -> -> ->. reflexivity.
Qed.

(** C4. Construction from a wire message or from raw bytes (no stream, path
    or key handle given): when the first length-prefixed string is anything
    but "ssh-rsa" it fails with the protocol error "Invalid key"; when it is
    "ssh-rsa", two big integers are read, first [e] then [n], the message is
    left right after them, and the key is the public-only key the provider
    builds from [(e, n)], for which [can_sign] is false. *)
Theorem init_from_wire (a : InitArgs P B) (m : Message.t) :
  arg_file_obj a = None -> arg_filename a = None -> arg_key a = None ->
  (arg_msg a = Some m \/
   arg_msg a = None /\ arg_data a = Some (Message.packet m) /\
   Message.pos m = O) ->
  (forall tag m1,
     Message.get_text m = Ok (tag, m1) -> tag <> "ssh-rsa"%string ->
     __init__ P B a = Raise (SSHException "Invalid key"))
  /\ (forall m1 e m2 n m3 pk,
     Message.get_text m = Ok ("ssh-rsa"%string, m1) ->
     Message.get_mpint m1 = Ok (e, m2) ->
     Message.get_mpint m2 = Ok (n, m3) ->
     numbers_public_key P (RSAPublicNumbers.mk e n) = Ok pk ->
     __init__ P B a = Ok ({| key := PublicHandle pk |}, Some m3) /\
     can_sign P {| key := PublicHandle pk |} = false).
Proof.
  intros Hf Hn Hk Hsrc.
  pose proof (init_reads_message a m Hf Hn Hk Hsrc) as E.
  rewrite E. split.
  - intros tag m1 Ht Hne. rewrite Ht. cbn [bind].
    apply String.eqb_neq in Hne. rewrite Hne. reflexivity.
  - intros m1 e m2 n m3 pk Ht He Hn' Hpk. rewrite Ht. cbn [bind].
    rewrite String.eqb_refl. cbn [negb].
    rewrite He. cbn [bind]. rewrite Hn'. cbn [bind]. rewrite Hpk.
    split; reflexivity.
Qed.

(** C7. The decode step: a [ValueError] of the provider's private-key parser
    is raised again as an [SSHException] that carries the parser's text; a
    parsed RSA private key becomes the key of the object; a parsed key of
    any other type fails the assertion. *)
Theorem decode_key_outcomes (data : bytes) :
  (forall text,
     load_der_private_key P data = Raise (ValueError text) ->
     _decode_key P data = Raise (SSHException text))
  /\ (forall k,
     load_der_private_key P data = Ok (LoadedRSA k) ->
     _decode_key P data = Ok {| key := PrivateHandle k |})
  /\ (forall o,
     load_der_private_key P data = Ok o ->
     (forall k, o <> LoadedRSA k) ->
     _decode_key P data = Raise AssertionError).
Proof.
  unfold _decode_key. split; [|split].
  - intros text ->. reflexivity.
  - intros k ->. reflexivity.
  - intros o -> Hno. destruct o as [k| |]; [|reflexivity|reflexivity].
    exfalso. apply (Hno k). reflexivity.
Qed.

End Construction.

(** ** Wire encoding *)

Section Wire.

Context (P : CryptoProvider) (B : PKeyBase).

(** The public key blob: three length-prefixed fields. *)
Lemma asbytes_layout (k : RSAKey P) (bs : bytes) :
  asbytes P k = Ok bs ->
  let pn := public_numbers P k in
  bs = field (list_byte_of_string "ssh-rsa")
       ++ field (deflate_long (RSAPublicNumbers.e pn))
       ++ field (deflate_long (RSAPublicNumbers.n pn))
  /\ Z.of_nat (length (deflate_long (RSAPublicNumbers.e pn))) < 2 ^ 32
  /\ Z.of_nat (length (deflate_long (RSAPublicNumbers.n pn))) < 2 ^ 32.
Proof.
  unfold asbytes, Message.add_mpint. intros H.
  apply bind_inv_ok in H. destruct H as (m1 & H1 & H).
  apply bind_inv_ok in H. destruct H as (m2 & H2 & H).
  apply bind_inv_ok in H. destruct H as (m3 & H3 & H).
  injection H as <-.
  apply add_string_ok in H1. destruct H1 as (_ & P1 & _).
  apply add_string_ok in H2. destruct H2 as (L2 & P2 & _).
  apply add_string_ok in H3. destruct H3 as (L3 & P3 & _).
  cbv zeta. unfold Message.asbytes.
  rewrite P3, P2, P1. simpl Message.packet. rewrite app_nil_l.
  rewrite <- app_assoc. unfold get_name. auto.
Qed.

(** The encoder does not fail on numbers whose mpint bodies fit the length
    prefix; RSA numbers of any practical size do. *)
Lemma asbytes_total (k : RSAKey P) :
  let pn := public_numbers P k in
  Z.of_nat (length (deflate_long (RSAPublicNumbers.e pn))) < 2 ^ 32 ->
  Z.of_nat (length (deflate_long (RSAPublicNumbers.n pn))) < 2 ^ 32 ->
  exists bs, asbytes P k = Ok bs.
Proof.
  cbv zeta. intros He Hn. unfold asbytes, Message.add_mpint.
  rewrite add_string_fits by (vm_compute; reflexivity). cbn [bind].
  rewrite add_string_fits by exact He. cbn [bind].
  rewrite add_string_fits by exact Hn. cbn [bind].
  eexists. reflexivity.
Qed.

Lemma mpint_size_le (z : Z) (bits : Z) :
  0 <= bits -> - 2 ^ bits <= z < 2 ^ bits ->
  Z.of_nat (length (deflate_long z)) <= bits / 8 + 1.
Proof.
  intros Hb Hz. unfold deflate_long. rewrite be_bytes_length.
  unfold mpint_size. destruct (Z.eqb_spec z 0) as [|Hne].
  - simpl. assert (0 <= bits / 8) by (apply Z.div_pos; lia). lia.
  - pose proof (signed_bits_nonneg z) as Hs.
    assert (Hq : 0 <= signed_bits z / 8) by (apply Z.div_pos; lia).
    rewrite Z2Nat.id by lia.
    assert (Hle : signed_bits z <= bits).
    { unfold signed_bits. destruct (Z.leb_spec 0 z).
      - apply Z.log2_up_le_pow2; lia.
      - apply Z.log2_up_le_pow2; lia. }
    pose proof (Z.div_le_mono _ _ 8 ltac:(lia) Hle). lia.
Qed.

(** The encoder succeeds on every key whose numbers have fewer than
    [8 * (2^32 - 1)] bits. *)
Lemma asbytes_total_bits (k : RSAKey P) (bits : Z) :
  let pn := public_numbers P k in
  0 <= bits < 8 * (2 ^ 32 - 1) ->
  - 2 ^ bits <= RSAPublicNumbers.e pn < 2 ^ bits ->
  - 2 ^ bits <= RSAPublicNumbers.n pn < 2 ^ bits ->
  exists bs, asbytes P k = Ok bs.
Proof.
  cbv zeta. intros Hb He Hn.
  assert (Hq : bits / 8 + 1 < 2 ^ 32).
  { assert (bits / 8 < 2 ^ 32 - 1); [|lia].
    apply Z.div_lt_upper_bound; lia. }
  apply asbytes_total.
  - pose proof (mpint_size_le _ bits ltac:(lia) He). lia.
  - pose proof (mpint_size_le _ bits ltac:(lia) Hn). lia.
Qed.

(** C10. The wire encoding depends on the public identity only: two
    instances with the same [(e, n)] produce the same bytes (or fail alike),
    be they public-only or holders of private material, so nothing of the
    private material reaches the encoding. *)
Theorem asbytes_public_only (k1 k2 : RSAKey P) :
  public_numbers P k1 = public_numbers P k2 ->
  asbytes P k1 = asbytes P k2.
Proof. intros H. unfold asbytes, get_name. rewrite H. reflexivity. Qed.

(** C2. Round trip: for a key whose public numbers the provider accepts,
    constructing a new key from the bytes of [asbytes] succeeds, and the new
    key has the same algorithm name "ssh-rsa" and the same [(e, n)]. *)
Theorem asbytes_init_roundtrip (k : RSAKey P) (bs : bytes)
    (pk : RSAPublicKey P) :
  ProviderLaws P ->
  numbers_public_key P (public_numbers P k) = Ok pk ->
  asbytes P k = Ok bs ->
  exists k' m,
    __init__ P B {| arg_msg := None; arg_data := Some bs;
                    arg_filename := None; arg_password := None;
                    arg_key := None; arg_file_obj := None |} = Ok (k', Some m)
    /\ get_name P k' = "ssh-rsa"%string
    /\ get_name P k' = get_name P k
    /\ public_numbers P k' = public_numbers P k.
Proof.
  intros Laws Hvalid Hbs.
  destruct (asbytes_layout k bs Hbs) as (Hlay & Le & Ln).
  set (pn := public_numbers P k) in *.
  rewrite (init_reads_message P B _ (Message.of_bytes bs));
    [| reflexivity | reflexivity | reflexivity
     | right; repeat split; reflexivity].
  assert (R0 : Message.remaining (Message.of_bytes bs) =
               field (list_byte_of_string "ssh-rsa")
               ++ field (deflate_long (RSAPublicNumbers.e pn))
               ++ field (deflate_long (RSAPublicNumbers.n pn)))
    by (unfold Message.remaining; simpl; exact Hlay).
  destruct (get_text_prefix _ "ssh-rsa" _ ltac:(vm_compute; reflexivity) R0)
    as (m1 & G1 & R1).
  destruct (get_mpint_prefix m1 _ _ Le R1) as (m2 & G2 & R2).
  rewrite <- (app_nil_r (field (deflate_long (RSAPublicNumbers.n pn)))) in R2.
  destruct (get_mpint_prefix m2 _ _ Ln R2) as (m3 & G3 & R3).
  rewrite G1. cbn [bind]. rewrite String.eqb_refl. cbn [negb].
  rewrite G2. cbn [bind]. rewrite G3. cbn [bind].
  rewrite public_numbers_eta, Hvalid. cbn [bind].
  exists {| key := PublicHandle pk |}, m3.
  repeat split.
  unfold public_numbers at 1. simpl.
  apply (built_key_numbers P Laws). exact Hvalid.
Qed.

End Wire.

(** ** Signing and verification *)

Section Signatures.

Context (P : CryptoProvider).

(** C8. For a key in private state, [sign_ssh_data] has the provider
    compute the signature over [data] with PKCS#1 v1.5 padding and SHA-1:
    through the key's [sign] method where the provider has it, else through
    a signer context made for that padding and hash, fed [data] and
    finalised.  It returns the message made of the length-prefixed string
    "ssh-rsa" followed by that signature as a length-prefixed byte string,
    and nothing else. *)
Theorem sign_ssh_data_message (k : RSAPrivateKey P) (data sig : bytes) :
  (if has_sign P
   then private_sign P k data PKCS1v15 SHA1
   else
     s <- private_signer P k PKCS1v15 SHA1 ;;
     s <- signer_update P s data ;;
     signer_finalize P s) = Ok sig ->
  Z.of_nat (length sig) < 2 ^ 32 ->
  exists m,
    sign_ssh_data P {| key := PrivateHandle k |} data = Ok m
    /\ Message.asbytes m = field (list_byte_of_string "ssh-rsa") ++ field sig
    /\ Message.get_text m = Ok ("ssh-rsa"%string,
                                Message.mk (Message.packet m) 11)
    /\ (exists m', Message.get_binary (Message.mk (Message.packet m) 11)
                   = Ok (sig, m') /\ Message.remaining m' = []).
Proof.
  intros Hsig Hlen. unfold sign_ssh_data, provider_sign. cbn [key].
  rewrite Hsig. cbn [bind].
  rewrite add_string_fits by (vm_compute; reflexivity). cbn [bind].
  rewrite add_string_fits by exact Hlen.
  eexists. split; [reflexivity|]. simpl Message.packet. simpl Message.pos.
  split; [reflexivity|]. split; [reflexivity|].
  apply get_string_prefix with (r := []); [exact Hlen|].
  unfold Message.remaining. simpl Message.pos. simpl Message.packet.
  rewrite app_nil_r. reflexivity.
Qed.

(** C1 (as the code has it).  For every payload and every message:
    [verify_ssh_sig] returns false, without raising, when the first field
    of the message is not "ssh-rsa".  When it is "ssh-rsa", the result is
    true exactly when the provider accepts the signature bytes over [data]
    under PKCS#1 v1.5 and SHA-1 (through the public key's [verify] method
    where the provider has it, else through a verifier context made for
    the signature, fed [data] and checked), and false when the provider
    raises [InvalidSignature].  An error of any other class raised by the
    provider, and an error raised while a field is read from the message,
    propagates. *)
Theorem verify_ssh_sig_outcomes (self : RSAKey P) (data : bytes)
    (msg : Message.t) :
  (forall e,
     Message.get_text msg = Raise e ->
     verify_ssh_sig P self data msg = Raise e)
  /\ (forall tag m1,
     Message.get_text msg = Ok (tag, m1) -> tag <> "ssh-rsa"%string ->
     verify_ssh_sig P self data msg = Ok false)
  /\ (forall m1 e,
     Message.get_text msg = Ok ("ssh-rsa"%string, m1) ->
     Message.get_binary m1 = Raise e ->
     verify_ssh_sig P self data msg = Raise e)
  /\ (forall m1 signature m2,
     Message.get_text msg = Ok ("ssh-rsa"%string, m1) ->
     Message.get_binary m1 = Ok (signature, m2) ->
     let pk :=
       match key self with
       | PrivateHandle k => private_public_key P k
       | PublicHandle k => k
       end in
     let checked :=
       if has_verify P
       then public_verify P pk signature data PKCS1v15 SHA1
       else
         v <- public_verifier P pk signature PKCS1v15 SHA1 ;;
         v <- verifier_update P v data ;;
         verifier_verify P v in
     (verify_ssh_sig P self data msg = Ok true <-> checked = Ok tt)
     /\ (checked = Raise InvalidSignature ->
         verify_ssh_sig P self data msg = Ok false)
     /\ (forall e, checked = Raise e -> e <> InvalidSignature ->
         verify_ssh_sig P self data msg = Raise e)).
Proof.
  split; [|split; [|split]].
  - intros e He. unfold verify_ssh_sig. rewrite He. reflexivity.
  - intros tag m1 Ht Hne. unfold verify_ssh_sig. rewrite Ht. cbn [bind].
    apply String.eqb_neq in Hne. rewrite Hne. reflexivity.
  - intros m1 e Ht Hs. unfold verify_ssh_sig. rewrite Ht. cbn [bind].
    rewrite String.eqb_refl. cbn [negb]. rewrite Hs. reflexivity.
  - intros m1 signature m2 Ht Hs pk checked.
    unfold verify_ssh_sig. rewrite Ht. cbn [bind].
    rewrite String.eqb_refl. cbn [negb]. rewrite Hs. cbn [bind].
    assert (E : provider_verify P (verification_key P self) signature data
                  PKCS1v15 SHA1 = checked) by reflexivity.
    rewrite E. clearbody checked. clear E.
    destruct checked as [[]|e].
    + repeat split; try discriminate; reflexivity.
    + split; [|split].
      * split; [destruct e; discriminate | discriminate].
      * intros H. injection H as ->. reflexivity.
      * intros e' H Hne. injection H as <-.
        destruct e; try reflexivity. contradiction.
Qed.

End Signatures.

(** ** Generation *)

Section Generation.

Context (P : CryptoProvider) (B : PKeyBase).

(** C5. When the provider accepts the bit size, [generate(bits)] returns a
    key in private state whose public exponent is 65537 and whose [size] and
    [get_bits] are the requested bits, and [can_sign] is true; the progress
    callback has no part in the outcome. *)
Theorem generate_private_65537 {Progress : Type} (ent : Entropy P) (bits : Z)
    (progress_func : option Progress) (sk : RSAPrivateKey P) :
  ProviderLaws P ->
  0 < bits ->
  generate_private_key P ent 65537 bits = Ok sk ->
  exists k,
    generate P B ent bits progress_func = Ok k
    /\ key k = PrivateHandle sk
    /\ RSAPublicNumbers.e (public_numbers P k) = 65537
    /\ size P k = bits
    /\ get_bits P k = bits
    /\ can_sign P k = true
    /\ (forall (Progress' : Type) (other : option Progress'),
          generate P B ent bits other = Ok k).
Proof.
  intros Laws _ Hgen. exists {| key := PrivateHandle sk |}.
  destruct (generated_key_shape P Laws _ _ _ _ Hgen) as (He & Hs).
  unfold generate. rewrite Hgen. cbn [bind].
  unfold __init__. simpl.
  unfold get_bits, size, public_numbers. simpl.
  repeat split; assumption.
Qed.

End Generation.

(** ** Identity *)

Section Identity.

Context (P : CryptoProvider).

Lemma RSAKey_eq_iff (a b : RSAKey P) :
  RSAKey_eq P a b = true <->
  get_name P a = get_name P b /\ public_numbers P a = public_numbers P b.
Proof.
  unfold RSAKey_eq. rewrite !andb_true_iff, String.eqb_eq, !Z.eqb_eq.
  destruct (public_numbers P a) as [e1 n1], (public_numbers P b) as [e2 n2].
  simpl. split.
  - intros [[Hn ->] ->]. split; [exact Hn | reflexivity].
  - intros [Hn H]. injection H as -> ->. rewrite Hn. repeat split.
Qed.

Lemma hash_combination_formula (hash_str : string -> Z) (hash_int : Z -> Z)
    (a : RSAKey P) :
  hash_combination P hash_str hash_int a
  = (hash_str (get_name P a) * 37
     + hash_int (RSAPublicNumbers.e (public_numbers P a))) * 37
    + hash_int (RSAPublicNumbers.n (public_numbers P a)).
Proof. reflexivity. Qed.

(** C6. Two keys are equal iff their algorithm names and [(e, n)] are
    equal.  The hash is made from exactly three values, the hash of the
    name, the hash of [e] and the hash of [n]: [__hash__] combines them as
    [((nameHash*37 + eHash)*37 + nHash)] and returns the interpreter's hash
    of that number, so keys that agree on the three values have the same
    hash.  The combination is sensitive to order: exchanging two different
    values for [e] and [n] changes it.  So equal keys hash equal, and two
    keys with the same public numbers compare and hash equal, whether or
    not either holds private material. *)
Theorem key_identity (hash_str : string -> Z) (hash_int : Z -> Z)
    (a b : RSAKey P) :
  (RSAKey_eq P a b = true <->
     get_name P a = get_name P b /\ public_numbers P a = public_numbers P b)
  /\ __hash__ P hash_str hash_int a =
       hash_int
         ((hash_str (get_name P a) * 37
           + hash_int (RSAPublicNumbers.e (public_numbers P a))) * 37
          + hash_int (RSAPublicNumbers.n (public_numbers P a)))
  /\ (hash_str (get_name P a) = hash_str (get_name P b) ->
      hash_int (RSAPublicNumbers.e (public_numbers P a))
        = hash_int (RSAPublicNumbers.e (public_numbers P b)) ->
      hash_int (RSAPublicNumbers.n (public_numbers P a))
        = hash_int (RSAPublicNumbers.n (public_numbers P b)) ->
      __hash__ P hash_str hash_int a = __hash__ P hash_str hash_int b)
  /\ (hash_int (RSAPublicNumbers.e (public_numbers P a))
        = hash_int (RSAPublicNumbers.n (public_numbers P b)) ->
      hash_int (RSAPublicNumbers.n (public_numbers P a))
        = hash_int (RSAPublicNumbers.e (public_numbers P b)) ->
      hash_int (RSAPublicNumbers.e (public_numbers P a))
        <> hash_int (RSAPublicNumbers.n (public_numbers P a)) ->
      hash_combination P hash_str hash_int a
        <> hash_combination P hash_str hash_int b)
  /\ (RSAKey_eq P a b = true ->
      __hash__ P hash_str hash_int a = __hash__ P hash_str hash_int b)
  /\ (forall (sk : RSAPrivateKey P) (pk : RSAPublicKey P),
      key a = PrivateHandle sk -> key b = PublicHandle pk ->
      private_public_numbers P sk = public_key_numbers P pk ->
      RSAKey_eq P a b = true
      /\ __hash__ P hash_str hash_int a = __hash__ P hash_str hash_int b).
Proof.
  split; [apply RSAKey_eq_iff|]. split; [reflexivity|].
  split; [|split; [|split]].
  - intros Hn He Hm. unfold __hash__. f_equal.
    rewrite !hash_combination_formula. rewrite Hn, He, Hm. reflexivity.
  - intros He Hm Hne. rewrite !hash_combination_formula.
    unfold get_name. rewrite <- He, <- Hm.
    set (x := hash_int (RSAPublicNumbers.e (public_numbers P a))) in *.
    set (y := hash_int (RSAPublicNumbers.n (public_numbers P a))) in *.
    lia.
  - intros H. apply RSAKey_eq_iff in H. destruct H as [_ H].
    unfold __hash__. f_equal. rewrite !hash_combination_formula.
    unfold get_name. rewrite H. reflexivity.
  - intros sk pk Ha Hb H.
    assert (E : public_numbers P a = public_numbers P b)
      by (unfold public_numbers; rewrite Ha, Hb; exact H).
    split.
    + apply RSAKey_eq_iff. split; [reflexivity | exact E].
    + unfold __hash__. f_equal. rewrite !hash_combination_formula.
      unfold get_name. rewrite E. reflexivity.
Qed.

End Identity.

(** ** The theorems at work on the test provider *)

(** C3, as the spec states it, fails: given both a wire message (the blob
    of the key [(5, 21)]) and an explicit key handle, the constructor stores
    the handle and leaves the message unread, where the message alone gives
    the key [(5, 21)]. *)
Lemma msg_and_key_given_key_wins :
  __init__ Sample.toy Toy.base
    (Sample.from_msg_and_key (Message.of_bytes Sample.other_blob)
       Toy.small_key)
  = Ok (Sample.private_key, Some (Message.of_bytes Sample.other_blob))
  /\ __init__ Sample.toy Toy.base
       (Sample.from_msg (Message.of_bytes Sample.other_blob))
  = Ok ({| key := PublicHandle (P := Sample.toy) (RSAPublicNumbers.mk 5 21) |},
        Some (Message.mk Sample.other_blob 21)).
Proof. split; vm_compute; reflexivity. Qed.

Lemma init_source_priority_witness :
  exists m,
    __init__ Sample.toy Toy.base
      (Sample.from_msg_and_key (Message.of_bytes Sample.other_blob)
         Toy.small_key)
    = Ok (Sample.private_key, m).
Proof.
  destruct (init_source_priority Sample.toy Toy.base
    (Sample.from_msg_and_key (Message.of_bytes Sample.other_blob)
       Toy.small_key)) as (_ & _ & H & _).
  destruct (H (PrivateHandle (P := Sample.toy) Toy.small_key)
              eq_refl eq_refl eq_refl) as (m & E & _).
  exists m. exact E.
Defined.

Lemma init_from_wire_witness :
  __init__ Sample.toy Toy.base (Sample.from_data Sample.dss_blob)
  = Raise (SSHException "Invalid key")
  /\ __init__ Sample.toy Toy.base (Sample.from_data Sample.blob)
  = Ok (Sample.public_key, Some (Message.mk Sample.blob 22)).
Proof.
  split.
  - refine (proj1 (init_from_wire Sample.toy Toy.base
                     (Sample.from_data Sample.dss_blob)
                     (Message.of_bytes Sample.dss_blob)
                     eq_refl eq_refl eq_refl _)
              "ssh-dss"%string (Message.mk Sample.dss_blob 11) eq_refl _).
    + right. repeat split; reflexivity.
    + discriminate.
  - refine (proj1 (proj2 (init_from_wire Sample.toy Toy.base
                     (Sample.from_data Sample.blob)
                     (Message.of_bytes Sample.blob)
                     eq_refl eq_refl eq_refl _)
              (Message.mk Sample.blob 11) 17 (Message.mk Sample.blob 16)
              3233 (Message.mk Sample.blob 22) (RSAPublicNumbers.mk 17 3233)
              eq_refl eq_refl eq_refl eq_refl)).
    right. repeat split; reflexivity.
Defined.

Lemma decode_key_outcomes_witness :
  _decode_key Sample.toy [] =
    Raise (SSHException "Could not deserialize key data.")
  /\ _decode_key Sample.toy (Toy.der_of Toy.small_key) = Ok Sample.private_key
  /\ _decode_key Sample.toy [x04] = Raise AssertionError.
Proof.
  split; [|split].
  - exact (proj1 (decode_key_outcomes Sample.toy [])
             "Could not deserialize key data."%string eq_refl).
  - exact (proj1 (proj2 (decode_key_outcomes Sample.toy
                           (Toy.der_of Toy.small_key)))
             Toy.small_key eq_refl).
  - refine (proj2 (proj2 (decode_key_outcomes Sample.toy [x04]))
              LoadedEC eq_refl _).
    intros k. discriminate.
Defined.

Lemma asbytes_public_only_witness :
  asbytes Sample.toy Sample.private_key = asbytes Sample.toy Sample.public_key
  /\ asbytes Sample.toy Sample.public_key = Ok Sample.blob.
Proof.
  split.
  - apply (asbytes_public_only Sample.toy). reflexivity.
  - reflexivity.
Defined.

Lemma asbytes_init_roundtrip_witness :
  asbytes Sample.toy Sample.private_key = Ok Sample.blob
  /\ exists k' m,
    __init__ Sample.toy Toy.base (Sample.from_data Sample.blob)
    = Ok (k', Some m)
    /\ get_name Sample.toy k' = "ssh-rsa"%string
    /\ get_name Sample.toy k' = get_name Sample.toy Sample.private_key
    /\ public_numbers Sample.toy k'
       = public_numbers Sample.toy Sample.private_key.
Proof.
  split; [reflexivity|].
  apply (asbytes_init_roundtrip Sample.toy Toy.base Sample.private_key
           Sample.blob (RSAPublicNumbers.mk 17 3233)).
  - apply toy_laws.
  - reflexivity.
  - reflexivity.
Defined.

Lemma sign_ssh_data_message_witness :
  (exists m,
     sign_ssh_data Sample.toy Sample.private_key Sample.payload = Ok m
     /\ Message.asbytes m
        = field (list_byte_of_string "ssh-rsa") ++ field Sample.signature)
  /\ (exists m,
     sign_ssh_data Fixture.legacy Fixture.legacy_private Sample.payload = Ok m
     /\ Message.asbytes m
        = field (list_byte_of_string "ssh-rsa") ++ field Sample.signature).
Proof.
  split.
  - destruct (sign_ssh_data_message Sample.toy Toy.small_key Sample.payload
                Sample.signature eq_refl) as (m & E & L & _).
    + vm_compute. reflexivity.
    + exists m. split; assumption.
  - destruct (sign_ssh_data_message Fixture.legacy Toy.small_key
                Sample.payload Sample.signature eq_refl) as (m & E & L & _).
    + vm_compute. reflexivity.
    + exists m. split; assumption.
Defined.

Lemma verify_ssh_sig_outcomes_witness :
  verify_ssh_sig Sample.toy Sample.public_key Sample.payload
    Sample.signature_message = Ok true
  /\ verify_ssh_sig Sample.toy Sample.public_key [x61]
       Sample.signature_message = Ok false
  /\ verify_ssh_sig Sample.toy Sample.public_key Sample.payload
       (Message.of_bytes Sample.dss_blob) = Ok false
  /\ verify_ssh_sig Fixture.legacy Fixture.legacy_public Sample.payload
       Sample.signature_message = Ok true
  /\ verify_ssh_sig Fixture.legacy Fixture.legacy_private [x61]
       Sample.signature_message = Ok false
  /\ verify_ssh_sig Fixture.legacy_no_sha1
       {| key := PublicHandle (P := Fixture.legacy_no_sha1)
                   (RSAPublicNumbers.mk 17 3233) |}
       Sample.payload Sample.signature_message
     = Raise (UnsupportedAlgorithm "sha1 is not supported by this backend")
  /\ verify_ssh_sig Sample.toy Sample.public_key Sample.payload
       (Message.of_bytes []) = Raise (SSHException "Invalid key")
  /\ verify_ssh_sig Sample.toy Sample.public_key Sample.payload
       Fixture.name_only = Raise (SSHException "Invalid key").
Proof.
  repeat apply conj.
  - apply (proj2 (proj2 (proj2
             (verify_ssh_sig_outcomes Sample.toy Sample.public_key
                Sample.payload Sample.signature_message)))
             (Message.mk (Message.packet Sample.signature_message) 11)
             Sample.signature
             (Message.mk (Message.packet Sample.signature_message) 21)
             eq_refl eq_refl).
    reflexivity.
  - apply (proj2 (proj2 (proj2
             (verify_ssh_sig_outcomes Sample.toy Sample.public_key
                [x61] Sample.signature_message)))
             (Message.mk (Message.packet Sample.signature_message) 11)
             Sample.signature
             (Message.mk (Message.packet Sample.signature_message) 21)
             eq_refl eq_refl).
    reflexivity.
  - apply (proj1 (proj2
             (verify_ssh_sig_outcomes Sample.toy Sample.public_key
                Sample.payload (Message.of_bytes Sample.dss_blob)))
             "ssh-dss"%string (Message.mk Sample.dss_blob 11) eq_refl).
    discriminate.
  - apply (proj2 (proj2 (proj2
             (verify_ssh_sig_outcomes Fixture.legacy Fixture.legacy_public
                Sample.payload Sample.signature_message)))
             (Message.mk (Message.packet Sample.signature_message) 11)
             Sample.signature
             (Message.mk (Message.packet Sample.signature_message) 21)
             eq_refl eq_refl).
    reflexivity.
  - apply (proj2 (proj2 (proj2
             (verify_ssh_sig_outcomes Fixture.legacy Fixture.legacy_private
                [x61] Sample.signature_message)))
             (Message.mk (Message.packet Sample.signature_message) 11)
             Sample.signature
             (Message.mk (Message.packet Sample.signature_message) 21)
             eq_refl eq_refl).
    reflexivity.
  - apply (proj2 (proj2 (proj2
             (verify_ssh_sig_outcomes Fixture.legacy_no_sha1
                {| key := PublicHandle (P := Fixture.legacy_no_sha1)
                            (RSAPublicNumbers.mk 17 3233) |}
                Sample.payload Sample.signature_message)))
             (Message.mk (Message.packet Sample.signature_message) 11)
             Sample.signature
             (Message.mk (Message.packet Sample.signature_message) 21)
             eq_refl eq_refl).
    + reflexivity.
    + discriminate.
  - apply (proj1
             (verify_ssh_sig_outcomes Sample.toy Sample.public_key
                Sample.payload (Message.of_bytes []))).
    reflexivity.
  - apply (proj1 (proj2 (proj2
             (verify_ssh_sig_outcomes Sample.toy Sample.public_key
                Sample.payload Fixture.name_only)))
             (Message.mk (Message.packet Fixture.name_only) 11)).
    + reflexivity.
    + reflexivity.
Defined.

(** C1, as the spec states it, fails.  With a backend that refuses SHA-1
    the provider raises [UnsupportedAlgorithm] on a well-formed signature
    message, the [except InvalidSignature] clause does not catch it, and the
    error leaves [verify_ssh_sig].  The two reads of the message stand
    before the [try]: on an empty message, and on one that ends after the
    name, the error of the read leaves [verify_ssh_sig] too. *)
Lemma verify_ssh_sig_error_propagates :
  verify_ssh_sig Sample.no_sha1
    {| key := PublicHandle (P := Sample.no_sha1) (RSAPublicNumbers.mk 17 3233) |}
    Sample.payload Sample.signature_message
  = Raise (UnsupportedAlgorithm "sha1 is not supported by this backend")
  /\ verify_ssh_sig Sample.toy Sample.public_key Sample.payload
       (Message.of_bytes []) = Raise (SSHException "Invalid key")
  /\ verify_ssh_sig Sample.toy Sample.public_key Sample.payload
       Fixture.name_only = Raise (SSHException "Invalid key").
Proof. repeat split; vm_compute; reflexivity. Qed.

Lemma generate_private_65537_witness :
  exists k,
    generate Sample.toy Toy.base 7 2048 (@None unit) = Ok k
    /\ RSAPublicNumbers.e (public_numbers Sample.toy k) = 65537
    /\ size Sample.toy k = 2048
    /\ can_sign Sample.toy k = true.
Proof.
  destruct (generate_private_65537 Sample.toy Toy.base 7 2048 (@None unit)
              {| Toy.pub := RSAPublicNumbers.mk 65537 (2 ^ 2047 + 1);
                 Toy.d := 7 |}
              (toy_laws true)) as (k & G & _ & E & S & _ & C & _).
  - lia.
  - reflexivity.
  - exists k. repeat split; assumption.
Defined.

Lemma key_identity_witness :
  (RSAKey_eq Sample.toy Sample.private_key Sample.public_key = true
   /\ __hash__ Sample.toy Sample.hash_str Sample.hash_int Sample.private_key
      = __hash__ Sample.toy Sample.hash_str Sample.hash_int Sample.public_key)
  /\ __hash__ Sample.toy Sample.hash_str Sample.hash_int Sample.public_key
     = __hash__ Sample.toy Sample.hash_str Sample.hash_int Sample.private_key
  /\ __hash__ Sample.toy Sample.hash_str Sample.hash_int Sample.private_key
     = __hash__ Sample.toy Sample.hash_str Sample.hash_int
         {| key := PrivateHandle (P := Sample.toy) Fixture.other_private |}
  /\ hash_combination Sample.toy Sample.hash_str Sample.hash_int
       Sample.public_key
     <> hash_combination Sample.toy Sample.hash_str Sample.hash_int
          Sample.exchanged_key.
Proof.
  split; [|split; [|split]].
  - apply (proj2 (proj2 (proj2 (proj2 (proj2
             (key_identity Sample.toy Sample.hash_str Sample.hash_int
                Sample.private_key Sample.public_key)))))
             Toy.small_key (RSAPublicNumbers.mk 17 3233));
      reflexivity.
  - apply (proj1 (proj2 (proj2 (proj2 (proj2
             (key_identity Sample.toy Sample.hash_str Sample.hash_int
                Sample.public_key Sample.private_key)))))).
    reflexivity.
  - apply (proj1 (proj2 (proj2
             (key_identity Sample.toy Sample.hash_str Sample.hash_int
                Sample.private_key
                {| key := PrivateHandle (P := Sample.toy)
                            Fixture.other_private |}))));
      reflexivity.
  - apply (proj1 (proj2 (proj2 (proj2
             (key_identity Sample.toy Sample.hash_str Sample.hash_int
                Sample.public_key Sample.exchanged_key))))).
    + reflexivity.
    + reflexivity.
    + vm_compute. discriminate.
Defined.

(** * Further properties of [rsakey.py] *)

(** ** The decode step *)

Section Decode.

Context (P : CryptoProvider).

(** X1. [_decode_key] never raises [ValueError]: every [ValueError] of the
    provider's parser leaves it as an [SSHException]. *)
Theorem decode_key_never_value_error (data : bytes) (text : string) :
  _decode_key P data <> Raise (ValueError text).
Proof.
  unfold _decode_key.
  destruct (load_der_private_key P data) as [[k| |]|e]; try discriminate.
  destruct e; discriminate.
Qed.

(** X2. [_decode_key] returns a key only when the provider's parser handed
    back an RSA private key; the key holds that handle and can sign. *)
Theorem decode_key_inversion (data : bytes) (k : RSAKey P) :
  _decode_key P data = Ok k ->
  exists sk,
    load_der_private_key P data = Ok (LoadedRSA sk)
    /\ key k = PrivateHandle sk
    /\ can_sign P k = true.
Proof.
  unfold _decode_key. intros H.
  destruct (load_der_private_key P data) as [[sk| |]|e]; try discriminate.
  - injection H as <-. exists sk. repeat split.
  - destruct e; discriminate.
Qed.

(** X3. An error of the provider's parser that is not a [ValueError] (a
    [TypeError] for an encrypted container, an unsupported key type) is not
    converted: it leaves [_decode_key] as it is. *)
Theorem decode_key_error_passthrough (data : bytes) (e : exn) :
  load_der_private_key P data = Raise e ->
  (forall text, e <> ValueError text) ->
  _decode_key P data = Raise e.
Proof.
  unfold _decode_key. intros -> Hne.
  destruct e; try reflexivity.
  exfalso. apply (Hne text). reflexivity.
Qed.

End Decode.

(** ** Construction, further *)

Section ConstructionMore.

Context (P : CryptoProvider) (B : PKeyBase).

(** What a successful read of a private key went through. *)
Lemma read_and_decode_inv (read : result bytes) (k : RSAKey P) :
  (data <- read ;; _decode_key P data) = Ok k ->
  exists data sk,
    read = Ok data
    /\ load_der_private_key P data = Ok (LoadedRSA sk)
    /\ k = {| key := PrivateHandle sk |}.
Proof.
  intros H. apply bind_inv_ok in H. destruct H as (data & Hr & Hd).
  unfold _decode_key in Hd.
  destruct (load_der_private_key P data) as [[sk| |]|e] eqn:El;
    try discriminate.
  - injection Hd as <-. exists data, sk. repeat split; assumption.
  - destruct e; discriminate.
Qed.

(** On the message path the constructed key is public-only. *)
Lemma init_message_path_public (a : InitArgs P B) (k : RSAKey P)
    (mf : option Message.t) :
  arg_file_obj a = None -> arg_filename a = None -> arg_key a = None ->
  __init__ P B a = Ok (k, mf) -> can_sign P k = false.
Proof.
  intros Hf Hn Hk H. unfold __init__ in H. rewrite Hf, Hn, Hk in H.
  destruct (match arg_msg a with
            | Some _ => arg_msg a
            | None => match arg_data a with
                      | Some data => Some (Message.of_bytes data)
                      | None => None
                      end
            end) as [m|] eqn:Em.
  2: { destruct (arg_msg a); [discriminate Em|].
       destruct (arg_data a); [discriminate Em | discriminate H]. }
  assert (H' :
    ('(tag, m1) <- Message.get_text m ;;
     if negb (tag =? "ssh-rsa")%string
     then Raise (SSHException "Invalid key")
     else
       '(e, m2) <- Message.get_mpint m1 ;;
       '(n, m3) <- Message.get_mpint m2 ;;
       pk <- numbers_public_key P (RSAPublicNumbers.mk e n) ;;
       Ok ({| key := PublicHandle pk |}, Some m3)) = Ok (k, mf)).
  { destruct (arg_msg a) as [m0|].
    - injection Em as <-. exact H.
    - destruct (arg_data a) as [d|]; [|discriminate Em].
      injection Em as <-. exact H. }
  clear H. rename H' into H.
  apply bind_inv_ok in H. destruct H as ([tag m1] & _ & H). cbv beta iota in H.
  destruct (negb (tag =? "ssh-rsa")%string); [discriminate|].
  apply bind_inv_ok in H. destruct H as ([e m2] & _ & H). cbv beta iota in H.
  apply bind_inv_ok in H. destruct H as ([n m3] & _ & H). cbv beta iota in H.
  apply bind_inv_ok in H. destruct H as (pk & _ & H).
  injection H as <- _. reflexivity.
Qed.

(** X4. When a stream or, without a stream, a path is given and the
    constructor returns, the key comes from the private-key reader called
    with the tag "RSA" and the given password, then from the provider's
    parser: it is in private state and can sign, the message argument is
    left as it was, and data and key handle play no part. *)
Theorem init_private_sources (a : InitArgs P B) (k : RSAKey P)
    (m : option Message.t) :
  __init__ P B a = Ok (k, m) ->
  (forall f, arg_file_obj a = Some f ->
     exists data sk,
       _read_private_key B "RSA" f (arg_password a) = Ok data
       /\ load_der_private_key P data = Ok (LoadedRSA sk)
       /\ key k = PrivateHandle sk /\ can_sign P k = true
       /\ m = arg_msg a)
  /\ (forall fn, arg_file_obj a = None -> arg_filename a = Some fn ->
     exists data sk,
       _read_private_key_file B "RSA" fn (arg_password a) = Ok data
       /\ load_der_private_key P data = Ok (LoadedRSA sk)
       /\ key k = PrivateHandle sk /\ can_sign P k = true
       /\ m = arg_msg a).
Proof.
  intros H. split.
  - intros f Hf. unfold __init__ in H. rewrite Hf in H.
    apply bind_inv_ok in H. destruct H as (k0 & Hk & H). injection H as <- <-.
    destruct (read_and_decode_inv _ _ Hk) as (data & sk & Hr & Hl & ->).
    exists data, sk. repeat split; assumption.
  - intros fn Hf Hn. unfold __init__ in H. rewrite Hf, Hn in H.
    apply bind_inv_ok in H. destruct H as (k0 & Hk & H). injection H as <- <-.
    destruct (read_and_decode_inv _ _ Hk) as (data & sk & Hr & Hl & ->).
    exists data, sk. repeat split; assumption.
Qed.

(** X5. An error of the private-key reader (a missing file, a wrong
    password) leaves the constructor as it is, whatever message, data or key
    handle were given along. *)
Theorem init_reader_error (a : InitArgs P B) (e : exn) :
  (forall f, arg_file_obj a = Some f ->
     _read_private_key B "RSA" f (arg_password a) = Raise e ->
     __init__ P B a = Raise e)
  /\ (forall fn, arg_file_obj a = None -> arg_filename a = Some fn ->
     _read_private_key_file B "RSA" fn (arg_password a) = Raise e ->
     __init__ P B a = Raise e).
Proof.
  split.
  - intros f Hf Hr. unfold __init__, _from_private_key.
    rewrite Hf, Hr. reflexivity.
  - intros fn Hf Hn Hr. unfold __init__, _from_private_key_file.
    rewrite Hf, Hn, Hr. reflexivity.
Qed.

(** X6. When neither stream, path nor key handle is given and the
    constructor returns, the message (given, or the raw data wrapped) began
    with the string "ssh-rsa" followed by two integers [e] and [n] that the
    provider accepted; the key is the public-only key built from them, it
    cannot sign, and the message is left right after [n]. *)
Theorem init_wire_inversion (a : InitArgs P B) (k : RSAKey P)
    (mf : option Message.t) :
  arg_file_obj a = None -> arg_filename a = None -> arg_key a = None ->
  __init__ P B a = Ok (k, mf) ->
  exists m m1 e m2 n m3 pk,
    (arg_msg a = Some m \/
     arg_msg a = None /\ arg_data a = Some (Message.packet m)
     /\ Message.pos m = O)
    /\ Message.get_text m = Ok ("ssh-rsa"%string, m1)
    /\ Message.get_mpint m1 = Ok (e, m2)
    /\ Message.get_mpint m2 = Ok (n, m3)
    /\ numbers_public_key P (RSAPublicNumbers.mk e n) = Ok pk
    /\ key k = PublicHandle pk
    /\ can_sign P k = false
    /\ mf = Some m3.
Proof.
  intros Hf Hn Hk H.
  assert (Hsrc : exists m,
    arg_msg a = Some m \/
    arg_msg a = None /\ arg_data a = Some (Message.packet m)
    /\ Message.pos m = O).
  { unfold __init__ in H. rewrite Hf, Hn, Hk in H.
    destruct (arg_msg a) as [m|]; [exists m; left; reflexivity|].
    destruct (arg_data a) as [d|]; [|discriminate].
    exists (Message.of_bytes d). right. repeat split. }
  destruct Hsrc as (m & Hsrc).
  rewrite (init_reads_message P B a m Hf Hn Hk Hsrc) in H.
  apply bind_inv_ok in H. destruct H as ([tag m1] & Ht & H). cbv beta iota in H.
  destruct (String.eqb_spec tag "ssh-rsa") as [->|]; [|discriminate].
  cbn [negb] in H.
  apply bind_inv_ok in H. destruct H as ([e m2] & He & H). cbv beta iota in H.
  apply bind_inv_ok in H. destruct H as ([n m3] & Hn' & H). cbv beta iota in H.
  apply bind_inv_ok in H. destruct H as (pk & Hpk & H).
  injection H as <- <-.
  exists m, m1, e, m2, n, m3, pk. repeat split; assumption.
Qed.

(** X7. Whatever the arguments, a constructed key can sign exactly when it
    came from a stream, from a path, or from an explicit handle of a private
    key; a key read from a message or from raw data never can. *)
Theorem init_can_sign_iff (a : InitArgs P B) (k : RSAKey P)
    (m : option Message.t) :
  __init__ P B a = Ok (k, m) ->
  (can_sign P k = true <->
   arg_file_obj a <> None \/ arg_filename a <> None
   \/ exists sk, arg_key a = Some (PrivateHandle sk)).
Proof.
  intros H.
  destruct (arg_file_obj a) as [f|] eqn:Hf.
  - unfold __init__ in H. rewrite Hf in H.
    apply bind_inv_ok in H. destruct H as (k0 & Hk & H). injection H as <- _.
    destruct (read_and_decode_inv _ _ Hk) as (data & sk & _ & _ & ->).
    split; [intros _; left; discriminate | reflexivity].
  - destruct (arg_filename a) as [fn|] eqn:Hn.
    + unfold __init__ in H. rewrite Hf, Hn in H.
      apply bind_inv_ok in H. destruct H as (k0 & Hk & H). injection H as <- _.
      destruct (read_and_decode_inv _ _ Hk) as (data & sk & _ & _ & ->).
      split; [intros _; right; left; discriminate | reflexivity].
    + destruct (arg_key a) as [h|] eqn:Hk.
      * unfold __init__ in H. rewrite Hf, Hn, Hk in H. injection H as <- _.
        destruct h as [sk|pk]; simpl.
        -- split; [intros _; right; right; exists sk; reflexivity
                  | reflexivity].
        -- split; [discriminate|].
           intros [C | [C | (sk & C)]];
             [contradiction | contradiction | discriminate].
      * pose proof (init_message_path_public a k m Hf Hn Hk H) as Hc.
        rewrite Hc. split; [discriminate|].
        intros [C | [C | (sk & C)]];
          [contradiction | contradiction | discriminate].
Qed.

End ConstructionMore.

(** ** Generation, further *)

Section GenerationMore.

Context (P : CryptoProvider) (B : PKeyBase).

(** X8. [generate] returns a key exactly when the provider generates one
    for the exponent 65537 and the requested size: the provider's key comes
    back as the handle of the returned instance, which can sign, and an
    error of the provider (a refused bit size) leaves [generate] as it
    is. *)
Theorem generate_outcome {Progress : Type} (ent : Entropy P) (bits : Z)
    (progress_func : option Progress) :
  (forall e,
     generate_private_key P ent 65537 bits = Raise e ->
     generate P B ent bits progress_func = Raise e)
  /\ (forall sk,
     generate_private_key P ent 65537 bits = Ok sk ->
     generate P B ent bits progress_func = Ok {| key := PrivateHandle sk |})
  /\ (forall k,
     generate P B ent bits progress_func = Ok k ->
     exists sk,
       generate_private_key P ent 65537 bits = Ok sk
       /\ key k = PrivateHandle sk /\ can_sign P k = true).
Proof.
  unfold generate. split; [|split].
  - intros e ->. reflexivity.
  - intros sk ->. reflexivity.
  - intros k H. apply bind_inv_ok in H. destruct H as (sk & Hg & H).
    unfold __init__ in H. simpl in H. injection H as <-.
    exists sk. repeat split. exact Hg.
Qed.

End GenerationMore.

(** ** Signing and verification, further *)

Section SignaturesMore.

Context (P : CryptoProvider).

(** X9. Whenever [sign_ssh_data] returns a message, the key is in private
    state and the message is the string "ssh-rsa" followed by the very
    signature the provider computed over [data] with PKCS#1 v1.5 and SHA-1,
    by the key's [sign] method or, where the provider lacks it, by a signer
    context; a public-only key never yields a message. *)
Theorem sign_ssh_data_inversion (self : RSAKey P) (data : bytes)
    (m : Message.t) :
  sign_ssh_data P self data = Ok m ->
  exists sk sig,
    key self = PrivateHandle sk
    /\ can_sign P self = true
    /\ (if has_sign P
        then private_sign P sk data PKCS1v15 SHA1
        else
          s <- private_signer P sk PKCS1v15 SHA1 ;;
          s <- signer_update P s data ;;
          signer_finalize P s) = Ok sig
    /\ Message.asbytes m = field (list_byte_of_string "ssh-rsa") ++ field sig.
Proof.
  unfold sign_ssh_data, can_sign. intros H.
  apply bind_inv_ok in H. destruct H as (sig & Hs & H).
  destruct (key self) as [sk|pk]; [|discriminate].
  apply bind_inv_ok in H. destruct H as (m1 & H1 & H2).
  apply add_string_ok in H1. destruct H1 as (_ & P1 & _).
  apply add_string_ok in H2. destruct H2 as (_ & P2 & _).
  exists sk, sig. repeat split; [exact Hs|].
  unfold Message.asbytes. rewrite P2, P1. reflexivity.
Qed.

(** X10. Signing, then verifying what went over the wire: the bytes of the
    message that [sign_ssh_data] returns for the signature the provider
    computed, read back as a message, verify against a payload exactly when
    the provider accepts that signature for that payload under the signer's
    public key (by the public key's [verify] method or, where the provider
    lacks it, by a verifier context); this holds for the signing instance
    and for any instance that verifies with that public key. *)
Theorem sign_then_verify (sk : RSAPrivateKey P) (data sig : bytes) :
  (if has_sign P
   then private_sign P sk data PKCS1v15 SHA1
   else
     s <- private_signer P sk PKCS1v15 SHA1 ;;
     s <- signer_update P s data ;;
     signer_finalize P s) = Ok sig ->
  Z.of_nat (length sig) < 2 ^ 32 ->
  exists m,
    sign_ssh_data P {| key := PrivateHandle sk |} data = Ok m
    /\ forall (self : RSAKey P) (data' : bytes),
         match key self with
         | PrivateHandle k => private_public_key P k
         | PublicHandle k => k
         end = private_public_key P sk ->
         (verify_ssh_sig P self data' (Message.of_bytes (Message.asbytes m))
            = Ok true
          <-> (if has_verify P
               then public_verify P (private_public_key P sk) sig data'
                      PKCS1v15 SHA1
               else
                 v <- public_verifier P (private_public_key P sk) sig
                        PKCS1v15 SHA1 ;;
                 v <- verifier_update P v data' ;;
                 verifier_verify P v) = Ok tt).
Proof.
  intros Hsig Hlen. unfold sign_ssh_data, provider_sign. cbn [key].
  rewrite Hsig. cbn [bind].
  rewrite add_string_fits by (vm_compute; reflexivity). cbn [bind].
  rewrite add_string_fits by exact Hlen.
  eexists. split; [reflexivity|].
  intros self data' Hkey.
  cbn [Message.packet Message.pos Message.asbytes Message.new app].
  set (wire := field (list_byte_of_string "ssh-rsa") ++ field sig).
  assert (R0 : Message.remaining (Message.of_bytes wire)
               = field (list_byte_of_string "ssh-rsa") ++ field sig)
    by reflexivity.
  destruct (get_text_prefix _ "ssh-rsa" _ ltac:(vm_compute; reflexivity) R0)
    as (m1 & G1 & R1).
  rewrite <- (app_nil_r (field sig)) in R1.
  destruct (get_string_prefix m1 _ _ Hlen R1) as (m2 & G2 & _).
  unfold verify_ssh_sig. rewrite G1. cbn [bind].
  rewrite String.eqb_refl. cbn [negb].
  unfold Message.get_binary. rewrite G2. cbn [bind].
  unfold verification_key. rewrite Hkey. unfold provider_verify.
  destruct (if has_verify P
            then public_verify P (private_public_key P sk) sig data'
                   PKCS1v15 SHA1
            else
              v <- public_verifier P (private_public_key P sk) sig
                     PKCS1v15 SHA1 ;;
              v <- verifier_update P v data' ;;
              verifier_verify P v) as [[]|e].
  - split; reflexivity.
  - split; [destruct e; discriminate | discriminate].
Qed.

End SignaturesMore.

(** ** Wire encoding, further *)

Section WireMore.

Context (P : CryptoProvider) (B : PKeyBase).

(** X11. The blob identifies the public numbers: two keys with the same
    [asbytes] have the same [(e, n)]. *)
Theorem asbytes_injective (k1 k2 : RSAKey P) (bs : bytes) :
  asbytes P k1 = Ok bs -> asbytes P k2 = Ok bs ->
  public_numbers P k1 = public_numbers P k2.
Proof.
  intros H1 H2.
  destruct (asbytes_layout P k1 bs H1) as (L1 & E1 & N1).
  destruct (asbytes_layout P k2 bs H2) as (L2 & E2 & N2).
  destruct (public_numbers P k1) as [e1 n1], (public_numbers P k2) as [e2 n2].
  cbn [RSAPublicNumbers.e RSAPublicNumbers.n] in *.
  assert (R1 : Message.remaining (Message.of_bytes bs)
               = field (list_byte_of_string "ssh-rsa")
                 ++ field (deflate_long e1) ++ field (deflate_long n1))
    by exact L1.
  assert (R2 : Message.remaining (Message.of_bytes bs)
               = field (list_byte_of_string "ssh-rsa")
                 ++ field (deflate_long e2) ++ field (deflate_long n2))
    by exact L2.
  destruct (get_text_prefix _ "ssh-rsa" _ ltac:(vm_compute; reflexivity) R1)
    as (a1 & Ga & Ra).
  destruct (get_text_prefix _ "ssh-rsa" _ ltac:(vm_compute; reflexivity) R2)
    as (b1 & Gb & Rb).
  rewrite Ga in Gb. injection Gb as <-.
  destruct (get_mpint_prefix a1 _ _ E1 Ra) as (a2 & Ga2 & Ra2).
  destruct (get_mpint_prefix a1 _ _ E2 Rb) as (b2 & Gb2 & Rb2).
  rewrite Ga2 in Gb2. injection Gb2 as <- <-.
  rewrite <- (app_nil_r (field (deflate_long n1))) in Ra2.
  rewrite <- (app_nil_r (field (deflate_long n2))) in Rb2.
  destruct (get_mpint_prefix a2 _ _ N1 Ra2) as (a3 & Ga3 & _).
  destruct (get_mpint_prefix a2 _ _ N2 Rb2) as (b3 & Gb3 & _).
  rewrite Ga3 in Gb3. injection Gb3 as <- _.
  reflexivity.
Qed.

(** X12. Every blob that [asbytes] returns starts with the same eleven
    bytes, the length 7 and the text "ssh-rsa", followed by the fields of
    [e] and of [n] and nothing more; its length is 19 plus the lengths of
    the two integer bodies. *)
Theorem asbytes_wire_format (k : RSAKey P) (bs : bytes) :
  asbytes P k = Ok bs ->
  bs = (x00 :: x00 :: x00 :: x07 :: list_byte_of_string "ssh-rsa")
       ++ field (deflate_long (RSAPublicNumbers.e (public_numbers P k)))
       ++ field (deflate_long (RSAPublicNumbers.n (public_numbers P k)))
  /\ length bs
     = (19 + length (deflate_long (RSAPublicNumbers.e (public_numbers P k)))
        + length (deflate_long (RSAPublicNumbers.n (public_numbers P k))))%nat.
Proof.
  intros H. destruct (asbytes_layout P k bs H) as (L & _ & _).
  split; [exact L|].
  rewrite L. unfold field. rewrite !length_app, !be_bytes_length.
  simpl. lia.
Qed.

(** X13. Bytes after the modulus are not looked at: constructing from the
    blob of a key followed by any further bytes succeeds with the same
    public-only key as from the blob alone, and leaves those bytes
    unread. *)
Theorem init_trailing_bytes_ignored (k : RSAKey P) (bs junk : bytes)
    (pk : RSAPublicKey P) :
  asbytes P k = Ok bs ->
  numbers_public_key P (public_numbers P k) = Ok pk ->
  exists m,
    __init__ P B {| arg_msg := None; arg_data := Some (bs ++ junk);
                    arg_filename := None; arg_password := None;
                    arg_key := None; arg_file_obj := None |}
    = Ok ({| key := PublicHandle pk |}, Some m)
    /\ Message.remaining m = junk.
Proof.
  intros Hbs Hvalid.
  destruct (asbytes_layout P k bs Hbs) as (Hlay & Le & Ln).
  set (pn := public_numbers P k) in *.
  rewrite (init_reads_message P B _ (Message.of_bytes (bs ++ junk)));
    [| reflexivity | reflexivity | reflexivity
     | right; repeat split; reflexivity].
  assert (R0 : Message.remaining (Message.of_bytes (bs ++ junk)) =
               field (list_byte_of_string "ssh-rsa")
               ++ field (deflate_long (RSAPublicNumbers.e pn))
               ++ field (deflate_long (RSAPublicNumbers.n pn)) ++ junk).
  { unfold Message.remaining. simpl. rewrite Hlay.
    rewrite <- !app_assoc. reflexivity. }
  destruct (get_text_prefix _ "ssh-rsa" _ ltac:(vm_compute; reflexivity) R0)
    as (m1 & G1 & R1).
  destruct (get_mpint_prefix m1 _ _ Le R1) as (m2 & G2 & R2).
  destruct (get_mpint_prefix m2 _ _ Ln R2) as (m3 & G3 & R3).
  rewrite G1. cbn [bind]. rewrite String.eqb_refl. cbn [negb].
  rewrite G2. cbn [bind]. rewrite G3. cbn [bind].
  rewrite public_numbers_eta, Hvalid. cbn [bind].
  exists m3. split; [reflexivity | exact R3].
Qed.

End WireMore.

(** ** The further theorems at work on the test provider *)

Lemma decode_key_inversion_witness :
  exists sk,
    load_der_private_key Sample.toy (Toy.der_of Toy.small_key)
      = Ok (LoadedRSA sk)
    /\ key Sample.private_key = PrivateHandle sk
    /\ can_sign Sample.toy Sample.private_key = true.
Proof.
  apply (decode_key_inversion Sample.toy (Toy.der_of Toy.small_key)
           Sample.private_key).
  reflexivity.
Defined.

Lemma decode_key_error_passthrough_witness :
  _decode_key Fixture.encrypted (Toy.der_of Toy.small_key)
  = Raise (TypeError "Password was not given but private key is encrypted").
Proof.
  apply (decode_key_error_passthrough Fixture.encrypted).
  - reflexivity.
  - intros text. discriminate.
Defined.

Lemma init_private_sources_witness :
  __init__ Sample.toy Toy.base
    (Fixture.from_file "id_rsa" (Message.of_bytes Sample.other_blob)
       Fixture.other_private)
  = Ok (Sample.private_key, Some (Message.of_bytes Sample.other_blob))
  /\ exists data sk,
       _read_private_key_file Toy.base "RSA" "id_rsa" None = Ok data
       /\ load_der_private_key Sample.toy data = Ok (LoadedRSA sk)
       /\ key Sample.private_key = PrivateHandle sk
       /\ can_sign Sample.toy Sample.private_key = true
       /\ Some (Message.of_bytes Sample.other_blob)
          = Some (Message.of_bytes Sample.other_blob).
Proof.
  split; [reflexivity|].
  exact (proj2 (init_private_sources Sample.toy Toy.base
                  (Fixture.from_file "id_rsa"
                     (Message.of_bytes Sample.other_blob)
                     Fixture.other_private)
                  Sample.private_key
                  (Some (Message.of_bytes Sample.other_blob)) eq_refl)
           "id_rsa"%string eq_refl eq_refl).
Defined.

Lemma init_reader_error_witness :
  __init__ Sample.toy Toy.base
    (Fixture.from_file "id_dsa" (Message.of_bytes Sample.blob)
       Toy.small_key)
  = Raise (IOError "No such file or directory").
Proof.
  exact (proj2 (init_reader_error Sample.toy Toy.base
                  (Fixture.from_file "id_dsa" (Message.of_bytes Sample.blob)
                     Toy.small_key)
                  (IOError "No such file or directory"))
           "id_dsa"%string eq_refl eq_refl eq_refl).
Defined.

Lemma init_wire_inversion_witness :
  exists m m1 e m2 n m3 pk,
    (arg_msg (Sample.from_data Sample.blob) = Some m \/
     arg_msg (Sample.from_data Sample.blob) = None
     /\ arg_data (Sample.from_data Sample.blob) = Some (Message.packet m)
     /\ Message.pos m = O)
    /\ Message.get_text m = Ok ("ssh-rsa"%string, m1)
    /\ Message.get_mpint m1 = Ok (e, m2)
    /\ Message.get_mpint m2 = Ok (n, m3)
    /\ numbers_public_key Sample.toy (RSAPublicNumbers.mk e n) = Ok pk
    /\ key Sample.public_key = PublicHandle pk
    /\ can_sign Sample.toy Sample.public_key = false
    /\ Some (Message.mk Sample.blob 22) = Some m3.
Proof.
  apply (init_wire_inversion Sample.toy Toy.base
           (Sample.from_data Sample.blob) Sample.public_key
           (Some (Message.mk Sample.blob 22)));
    reflexivity.
Defined.

Lemma init_can_sign_iff_witness :
  can_sign Sample.toy Sample.public_key = true <->
  arg_file_obj (Sample.from_data Sample.blob) <> None
  \/ arg_filename (Sample.from_data Sample.blob) <> None
  \/ exists sk,
       arg_key (Sample.from_data Sample.blob) = Some (PrivateHandle sk).
Proof.
  apply (init_can_sign_iff Sample.toy Toy.base
           (Sample.from_data Sample.blob) Sample.public_key
           (Some (Message.mk Sample.blob 22))).
  reflexivity.
Defined.

Lemma generate_outcome_witness :
  generate Sample.toy Toy.base 7 256 (@None unit)
  = Raise (ValueError "key_size must be at least 512-bits.")
  /\ generate Sample.toy Toy.base 7 2048 (@None unit)
     = Ok {| key := PrivateHandle (P := Sample.toy)
                      {| Toy.pub := RSAPublicNumbers.mk 65537 (2 ^ 2047 + 1);
                         Toy.d := 7 |} |}
  /\ exists sk,
       generate_private_key Sample.toy 7 65537 2048 = Ok sk
       /\ key {| key := PrivateHandle (P := Sample.toy)
                          {| Toy.pub :=
                               RSAPublicNumbers.mk 65537 (2 ^ 2047 + 1);
                             Toy.d := 7 |} |} = PrivateHandle sk
       /\ can_sign Sample.toy
            {| key := PrivateHandle (P := Sample.toy)
                        {| Toy.pub :=
                             RSAPublicNumbers.mk 65537 (2 ^ 2047 + 1);
                           Toy.d := 7 |} |} = true.
Proof.
  split; [|split].
  - apply (proj1 (generate_outcome Sample.toy Toy.base 7 256 (@None unit))).
    reflexivity.
  - apply (proj1 (proj2
             (generate_outcome Sample.toy Toy.base 7 2048 (@None unit)))).
    reflexivity.
  - apply (proj2 (proj2
             (generate_outcome Sample.toy Toy.base 7 2048 (@None unit)))).
    reflexivity.
Defined.

Lemma sign_ssh_data_inversion_witness :
  (exists sk sig,
     key Sample.private_key = PrivateHandle sk
     /\ can_sign Sample.toy Sample.private_key = true
     /\ private_sign Sample.toy sk Sample.payload PKCS1v15 SHA1 = Ok sig
     /\ Message.asbytes
          (Message.mk
             (field (list_byte_of_string "ssh-rsa")
              ++ field Sample.signature) 0)
        = field (list_byte_of_string "ssh-rsa") ++ field sig)
  /\ (exists sk sig,
     key Fixture.legacy_private = PrivateHandle sk
     /\ can_sign Fixture.legacy Fixture.legacy_private = true
     /\ (s <- private_signer Fixture.legacy sk PKCS1v15 SHA1 ;;
         s <- signer_update Fixture.legacy s Sample.payload ;;
         signer_finalize Fixture.legacy s) = Ok sig
     /\ Message.asbytes
          (Message.mk
             (field (list_byte_of_string "ssh-rsa")
              ++ field Sample.signature) 0)
        = field (list_byte_of_string "ssh-rsa") ++ field sig).
Proof.
  split.
  - apply (sign_ssh_data_inversion Sample.toy Sample.private_key
             Sample.payload).
    reflexivity.
  - apply (sign_ssh_data_inversion Fixture.legacy Fixture.legacy_private
             Sample.payload).
    reflexivity.
Defined.

Lemma sign_then_verify_witness :
  (exists m,
     sign_ssh_data Sample.toy Sample.private_key Sample.payload = Ok m
     /\ verify_ssh_sig Sample.toy Sample.public_key Sample.payload
          (Message.of_bytes (Message.asbytes m)) = Ok true)
  /\ (exists m,
     sign_ssh_data Fixture.legacy Fixture.legacy_private Sample.payload = Ok m
     /\ verify_ssh_sig Fixture.legacy Fixture.legacy_public Sample.payload
          (Message.of_bytes (Message.asbytes m)) = Ok true).
Proof.
  split.
  - destruct (sign_then_verify Sample.toy Toy.small_key Sample.payload
                Sample.signature eq_refl) as (m & Hs & Hv).
    + vm_compute. reflexivity.
    + exists m. split; [exact Hs|].
      apply (Hv Sample.public_key Sample.payload eq_refl). reflexivity.
  - destruct (sign_then_verify Fixture.legacy Toy.small_key Sample.payload
                Sample.signature eq_refl) as (m & Hs & Hv).
    + vm_compute. reflexivity.
    + exists m. split; [exact Hs|].
      apply (Hv Fixture.legacy_public Sample.payload eq_refl). reflexivity.
Defined.

Lemma asbytes_injective_witness :
  public_numbers Sample.toy Sample.private_key
  = public_numbers Sample.toy Sample.public_key.
Proof.
  apply (asbytes_injective Sample.toy Sample.private_key Sample.public_key
           Sample.blob); reflexivity.
Defined.

Lemma asbytes_wire_format_witness :
  Sample.blob
  = (x00 :: x00 :: x00 :: x07 :: list_byte_of_string "ssh-rsa")
    ++ field (deflate_long 17) ++ field (deflate_long 3233)
  /\ length Sample.blob = 22%nat.
Proof.
  apply (asbytes_wire_format Sample.toy Sample.public_key Sample.blob).
  reflexivity.
Defined.

Lemma init_trailing_bytes_ignored_witness :
  exists m,
    __init__ Sample.toy Toy.base (Sample.from_data (Sample.blob ++ [xff; x00]))
    = Ok (Sample.public_key, Some m)
    /\ Message.remaining m = [xff; x00].
Proof.
  apply (init_trailing_bytes_ignored Sample.toy Toy.base Sample.private_key
           Sample.blob [xff; x00] (RSAPublicNumbers.mk 17 3233));
    reflexivity.
Defined.
